(** * FlashCard-Q-A: the document-to-flashcard pipeline of [flash_g_v2.py]

    A shallow embedding of the functions of [flash_g_v2.py] that carry the
    program's logic (text extraction, paragraph selection, flashcard
    generation, the two exporters and the export dialogue) together with
    the properties the specification states about them.

    Python values are modelled as follows.
    - [str]: a list of Unicode code points ([N]); [len] is the list length.
    - [int]: [Z].  The page coordinates of the PDF exporter are floats in
      the source, but every value they take is a small integer (612, 792
      and differences of 15, 25, 30, 50), which a double holds exactly.
    - an exception: a record telling whether its class derives from
      [Exception] (what [except Exception] tests), with its class name
      and message.
    - the pretrained model, the document decoders, the dialogs and the
      clock are the environment: they enter as section variables. *)

From stdpp Require Import base list strings gmap.
From Stdlib Require Import ZArith NArith DecimalString Lia.

Local Open Scope Z_scope.

(** ** Python strings *)

Module PyStr.

(** Code point of the line feed, the separator of [text.split("\n")]. *)
Definition NL : N := 10%N.

(** A Rocq string literal read as a Python [str] (one code point per
    character of the literal; the literals of the source are ASCII). *)
Definition py (s : string) : list N :=
  Ascii.N_of_ascii <$> String.list_ascii_of_string s.

(** [len(s)] *)
Definition len (s : list N) : Z := Z.of_nat (length s).

(** [c.isspace()]: the white-space table of CPython
    ([_PyUnicode_IsWhitespace]), which [str.strip()] consults. *)
Definition isspace (c : N) : bool :=
  ((0x09 <=? c) && (c <=? 0x0D) || (0x1C <=? c) && (c <=? 0x20)
   || (c =? 0x85) || (c =? 0xA0) || (c =? 0x1680)
   || (0x2000 <=? c) && (c <=? 0x200A)
   || (c =? 0x2028) || (c =? 0x2029) || (c =? 0x202F)
   || (c =? 0x205F) || (c =? 0x3000))%N.

(** [s.lstrip()] *)
Fixpoint lstrip (s : list N) : list N :=
  match s with
  | [] => []
  | c :: s' => if isspace c then lstrip s' else s
  end.

(** [s.rstrip()] *)
Definition rstrip (s : list N) : list N := reverse (lstrip (reverse s)).

(** [s.strip()] *)
Definition strip (s : list N) : list N := rstrip (lstrip s).

(** [s.split(sep)] for a one-character separator: never the empty list,
    [''.split(sep) == ['']]. *)
Fixpoint split (sep : N) (s : list N) : list (list N) :=
  match s with
  | [] => [[]]
  | c :: s' =>
      if (c =? sep)%N then [] :: split sep s'
      else match split sep s' with
           | [] => [[c]]
           | seg :: segs => (c :: seg) :: segs
           end
  end.

(** [sep.join(parts)] *)
Fixpoint join (sep : list N) (parts : list (list N)) : list N :=
  match parts with
  | [] => []
  | [p] => p
  | p :: ps => p ++ sep ++ join sep ps
  end.

(** [s.startswith(prefix)] *)
Fixpoint startswith (s prefix : list N) {struct prefix} : bool :=
  match prefix, s with
  | [], _ => true
  | _ :: _, [] => false
  | a :: prefix', c :: s' => (a =? c)%N && startswith s' prefix'
  end.

(** [s.endswith(suffix)] *)
Definition endswith (s suffix : list N) : bool :=
  startswith (reverse s) (reverse suffix).

(** [sub in s] *)
Fixpoint contains (s sub : list N) : bool :=
  startswith s sub ||
  match s with
  | [] => false
  | _ :: s' => contains s' sub
  end.

(** [l[:stop]] for any integer [stop]: a negative [stop] counts from the
    end of the list. *)
Definition slice_to {A} (l : list A) (stop : Z) : list A :=
  if stop <? 0 then take (Z.to_nat (Z.of_nat (length l) + stop)) l
  else take (Z.to_nat stop) l.

(** [str(n)] for a natural number: its decimal digits. *)
Definition str_of_nat (n : nat) : list N :=
  py (NilEmpty.string_of_uint (Nat.to_uint n)).

(** A string that does not begin with white space. *)
Definition clean_head (s : list N) : Prop :=
  match s with [] => True | c :: _ => isspace c = false end.

(** [s.lower()] for an ASCII [s]: the letters A-Z become a-z. *)
Definition lower_ascii (s : list N) : list N :=
  (fun c => if (0x41 <=? c) && (c <=? 0x5A) then c + 0x20 else c)%N <$> s.

(** [s.upper()] for an ASCII [s]: the letters a-z become A-Z. *)
Definition upper_ascii (s : list N) : list N :=
  (fun c => if (0x61 <=? c) && (c <=? 0x7A) then c - 0x20 else c)%N <$> s.

(** Lines joined by line feeds, to write multi-line texts. *)
Definition py_lines (ls : list string) : list N := join [NL] (py <$> ls).

End PyStr.

Import PyStr.

(** ** Paragraph selection (lines 189-190) *)

Definition default_min_len : Z := 80.
Definition default_max_len : Z := 400.
Definition default_limit : Z := 25.

(** [min_len <= len(p.strip()) <= max_len] *)
Definition within (min_len max_len : Z) (p : list N) : Prop :=
  min_len <= len p <= max_len.

#[global] Instance within_dec min_len max_len p :
  Decision (within min_len max_len p).
Proof. unfold within. apply _. Defined.

(** [[p.strip() for p in text.split("\n")
       if min_len <= len(p.strip()) <= max_len][:limit]] *)
Definition get_relevant_paragraphs
    (text : list N) (min_len max_len limit : Z) : list (list N) :=
  slice_to
    (strip <$> filter (fun p => within min_len max_len (strip p))
                      (split NL text))
    limit.

(** ** Exceptions and results *)

(** A raised exception.  [exn_is_Exception] tells whether its class
    derives from [Exception], which is what the handler [except Exception]
    of [generate_flashcards] tests ([KeyboardInterrupt] and [SystemExit]
    do not). *)
Record exn := Exn {
  exn_is_Exception : bool;
  exn_class : string;
  exn_msg : list N
}.

(** The result of a call: a returned value or a raised exception. *)
Inductive outcome (A : Type) : Type :=
| Returned (a : A)
| Raised (e : exn).
Arguments Returned {A} a.
Arguments Raised {A} e.

(** [ValueError("Unsupported file type.")] *)
Definition unsupported_file_type : exn :=
  Exn true "ValueError" (py "Unsupported file type.").

(** What [None.strip()] raises. *)
Definition none_has_no_strip : exn :=
  Exn true "AttributeError"
      (py "'NoneType' object has no attribute 'strip'").

(** ** Text extraction (lines 167-187) *)

Section Extraction.

(** The decoders the program delegates to, as functions of the path:
    [open(path, "r", encoding="utf-8").read()],
    [[p.text for p in DocxDocument(path).paragraphs]] and
    [[page.get_text() for page in fitz.open(path)]]. *)
Variable open_read : list N -> outcome (list N).
Variable docx_paragraphs : list N -> outcome (list (list N)).
Variable pdf_pages : list N -> outcome (list (list N)).

(** The truth value of [p.text.strip()]: a non-empty string. *)
Definition non_blank (t : list N) : Prop := strip t <> [].

#[global] Instance non_blank_dec t : Decision (non_blank t).
Proof. unfold non_blank. apply _. Defined.

Definition extract_text_from_docx (path : list N) : outcome (list N) :=
  match docx_paragraphs path with
  | Returned paragraphs => Returned (join [NL] (filter non_blank paragraphs))
  | Raised e => Raised e
  end.

Definition extract_text_from_pdf (path : list N) : outcome (list N) :=
  match pdf_pages path with
  | Returned pages => Returned (foldl (fun text page => text ++ page) [] pages)
  | Raised e => Raised e
  end.

Definition extract_text (path : list N) : outcome (list N) :=
  if endswith path (py ".txt") then open_read path
  else if endswith path (py ".docx") then extract_text_from_docx path
  else if endswith path (py ".pdf") then extract_text_from_pdf path
  else Raised unsupported_file_type.

(** The document at [path] decodes, in the format its extension names,
    to something that holds text: a text file with a character in it, a
    word-processor document with a paragraph that [counts], a PDF with a
    character on some page. *)
Definition source_has_text (counts : list N -> Prop) (path : list N)
  : Prop :=
  (endswith path (py ".txt") = true
   /\ exists content, open_read path = Returned content /\ content <> [])
  \/ (endswith path (py ".docx") = true
      /\ exists paragraphs,
           docx_paragraphs path = Returned paragraphs
           /\ Exists counts paragraphs)
  \/ (endswith path (py ".pdf") = true
      /\ exists pages,
           pdf_pages path = Returned pages
           /\ Exists (fun t => t <> []) pages).

(** [extract_text] returns a non-empty string. *)
Definition extracts_text (path : list N) : Prop :=
  exists text, extract_text path = Returned text /\ text <> [].

End Extraction.

(** Stand-in decoders, to run the extraction on concrete documents: a text
    file, a word-processor document with a blank paragraph between two
    others, a PDF of two pages, and a word-processor document whose only
    paragraph is three spaces. *)
Definition sample_open_read (path : list N) : outcome (list N) :=
  Returned (py "plain text").
Definition sample_docx (path : list N) : outcome (list (list N)) :=
  Returned [py "first"; py "  "; py "second"].
Definition sample_pdf (path : list N) : outcome (list (list N)) :=
  Returned [py "page one "; py "page two"].
Definition blank_docx (path : list N) : outcome (list (list N)) :=
  Returned [py "   "].

(** ** Flashcard generation (lines 192-206) *)

(** A flashcard is the tuple [(q, para)]. *)
Definition flashcard : Type := list N * list N.
Definition question (c : flashcard) : list N := c.1.
Definition answer (c : flashcard) : list N := c.2.

Section Generation.

(** The pretrained model with its tokenizer (lines 194-196): encoding of
    the prompt, beam search and decoding of every output sequence.  It
    is opaque to the program; [world] is whatever it depends on besides
    the prompt, so that one prompt may succeed at one call and fail at
    another. *)
Variable world : Type.
Variable t5_generate : list N -> world -> outcome (list (list N)) * world.

Definition generate_questions (text : list N) (w : world)
  : outcome (list (list N)) * world :=
  let input_text := py "generate questions: " ++ text in
  t5_generate input_text w.

(** The line printed by the handler. *)
Definition error_line (e : exn) : list N :=
  py "Error generating for paragraph: " ++ exn_msg e.

(** The [for para in ...] loop of [generate_flashcards]; [flashcards] is
    the list built so far and [out] the lines printed so far.  The inner
    [for q in generate_questions(para)] starts only once the call has
    returned its whole list, so a paragraph contributes all of its
    questions or none. *)
Fixpoint flashcards_loop (paras : list (list N))
    (flashcards : list flashcard) (out : list (list N)) (w : world)
  : outcome (list flashcard) * list (list N) * world :=
  match paras with
  | [] => (Returned flashcards, out, w)
  | para :: rest =>
      match generate_questions para w with
      | (Returned qs, w') =>
          flashcards_loop rest
            (flashcards ++ ((fun q => (q, para)) <$> qs)) out w'
      | (Raised e, w') =>
          if exn_is_Exception e
          then flashcards_loop rest flashcards (out ++ [error_line e]) w'
          else (Raised e, out, w')
      end
  end.

Definition generate_flashcards (text : list N) (max_flashcards : Z)
    (w : world) : outcome (list flashcard) * list (list N) * world :=
  flashcards_loop
    (get_relevant_paragraphs text default_min_len default_max_len
                             max_flashcards)
    [] [] w.

(** The outcomes of the successive calls of [generate_questions] on a
    list of paragraphs, each call starting from the world the previous
    one left. *)
Fixpoint outcomes (paras : list (list N)) (w : world)
  : list (outcome (list (list N))) :=
  match paras with
  | [] => []
  | para :: rest =>
      let '(o, w') := generate_questions para w in o :: outcomes rest w'
  end.

End Generation.

Arguments generate_questions {world} t5_generate text w.
Arguments flashcards_loop {world} t5_generate paras flashcards out w.
Arguments generate_flashcards {world} t5_generate text max_flashcards w.
Arguments outcomes {world} t5_generate paras w.

(** The flashcards one paragraph contributes under a given outcome. *)
Definition cards_of (para : list N) (o : outcome (list (list N)))
  : list flashcard :=
  match o with
  | Returned qs => (fun q => (q, para)) <$> qs
  | Raised _ => []
  end.

(** An outcome that lets the batch go on: a result, or an exception that
    [except Exception] catches. *)
Definition survivable {A} (o : outcome A) : Prop :=
  match o with
  | Returned _ => True
  | Raised e => exn_is_Exception e = true
  end.

(** The flashcards of a batch whose calls had the outcomes [os]: those of
    every paragraph whose call returned, in paragraph order. *)
Definition batch_cards (paras : list (list N))
    (os : list (outcome (list (list N)))) : list flashcard :=
  concat (zip_with cards_of paras os).

(** The lines the handler prints for the outcomes [os]. *)
Definition error_lines (os : list (outcome (list (list N))))
  : list (list N) :=
  omap (fun o => match o with
                 | Returned _ => None
                 | Raised e => Some (error_line e)
                 end) os.

(** ** Exporters (lines 208-245) *)

(** A block [export_to_word] asks the document for: the arguments of a
    call of [add_heading] or of [add_paragraph]. *)
Inductive docx_block :=
| Heading (level : nat) (text : list N)
| Paragraph (style : option string) (text : list N).

(** A call on the PDF canvas. *)
Inductive canvas_op :=
| SetFont (name : string) (size : Z)
| DrawString (x y : Z) (text : list N)
| ShowPage
| Save.

(** A file written by an exporter: the blocks asked for up to [doc.save],
    or the canvas calls up to [save]. *)
Inductive written_file :=
| DocxFile (blocks : list docx_block)
| PdfFile (ops : list canvas_op).

#[global] Instance docx_block_eq_dec : EqDecision docx_block.
Proof. solve_decision. Defined.
#[global] Instance canvas_op_eq_dec : EqDecision canvas_op.
Proof. solve_decision. Defined.

(** [f"Flashcard #{i}"] *)
Definition card_title (i : nat) : list N := py "Flashcard #" ++ str_of_nat i.

(** [f"Generated on {datetime.datetime.now().strftime('%Y-%m-%d %H:%M')}"],
    [stamp] being the formatted time. *)
Definition generated_on (stamp : list N) : list N :=
  py "Generated on " ++ stamp.

(** The body of the loop of [export_to_word], from index [i] on. *)
Fixpoint word_cards (i : nat) (flashcards : list flashcard) : list docx_block :=
  match flashcards with
  | [] => []
  | (q, a) :: rest =>
      [ Paragraph (Some "Heading2") (card_title i);
        Paragraph None (py "Q: " ++ q);
        Paragraph None (py "A: " ++ a);
        Paragraph None [] ]
      ++ word_cards (S i) rest
  end.

Definition word_document (stamp : list N) (flashcards : list flashcard)
  : list docx_block :=
  [ Heading 1 (py "Flashcards");
    Paragraph None (generated_on stamp ++ [NL]) ]
  ++ word_cards 1 flashcards.

(** The characters lxml, with which python-docx builds the XML of the
    document, accepts in a text: tab, line feed, carriage return and the
    code points from U+0020 on that are neither surrogates nor U+FFFE or
    U+FFFF. *)
Definition xml_char (c : N) : bool :=
  (((c =? 0x09) || (c =? 0x0A) || (c =? 0x0D) || (0x20 <=? c))
   && negb ((0xD800 <=? c) && (c <=? 0xDFFF))
   && negb ((c =? 0xFFFE) || (c =? 0xFFFF)))%N.

Definition xml_compatible (s : list N) : bool := forallb xml_char s.

(** What [add_paragraph] raises for a text that is not XML compatible.
    (A lone surrogate is refused by the UTF-8 encoding that comes first,
    with [UnicodeEncodeError], a subclass of [ValueError]; the two are not
    told apart here.) *)
Definition not_xml_compatible : exn :=
  Exn true "ValueError"
      (py ("All strings must be XML compatible: Unicode or ASCII, "
           +:+ "no NULL bytes or control characters")).

(** [export_to_word] (lines 208-219).  The paragraphs are added one after
    the other and the document is saved last: when python-docx refuses a
    question or an answer nothing is written.  The title, the card titles
    and [stamp], which stands for the time as [strftime('%Y-%m-%d %H:%M')]
    formats it (digits, [-], [:] and a blank), are XML compatible. *)
Definition export_to_word (stamp : list N) (path : list N)
    (flashcards : list flashcard) (fs : gmap (list N) written_file)
  : outcome (gmap (list N) written_file) :=
  if forallb (fun c => xml_compatible (question c)
                       && xml_compatible (answer c)) flashcards
  then Returned (<[path := DocxFile (word_document stamp flashcards)]> fs)
  else Raised not_xml_compatible.

(** [reportlab.lib.pagesizes.letter] *)
Definition letter : Z * Z := (612, 792).

(** The threshold of [if y < 100]. *)
Definition page_threshold : Z := 100.

(** The loop of [export_to_pdf] from index [i] on, with the cursor at [y]. *)
Fixpoint pdf_cards (height y : Z) (i : nat) (flashcards : list flashcard)
  : list canvas_op :=
  match flashcards with
  | [] => []
  | (q, a) :: rest =>
      let y0 := if y <? page_threshold then height - 50 else y in
      (if y <? page_threshold then [ShowPage] else [])
      ++ [ SetFont "Helvetica-Bold" 11;
           DrawString 50 y0 (card_title i);
           SetFont "Helvetica" 10;
           DrawString 50 (y0 - 15) (py "Q: " ++ q);
           DrawString 50 (y0 - 15 - 15) (py "A: " ++ a) ]
      ++ pdf_cards height (y0 - 15 - 15 - 25) (S i) rest
  end.

Definition pdf_canvas (stamp : list N) (flashcards : list flashcard)
  : list canvas_op :=
  let '(width, height) := letter in
  let y := height - 50 in
  [ SetFont "Helvetica-Bold" 14;
    DrawString 50 y (py "Flashcards");
    SetFont "Helvetica" 10;
    DrawString 50 (y - 25) (generated_on stamp) ]
  ++ pdf_cards height (y - 25 - 30) 1 flashcards
  ++ [Save].

Definition export_to_pdf (stamp : list N) (path : list N)
    (flashcards : list flashcard) (fs : gmap (list N) written_file)
  : gmap (list N) written_file :=
  <[path := PdfFile (pdf_canvas stamp flashcards)]> fs.

(** What the PDF exporter lays out, read back from the canvas calls: the
    page (counted from 0) and the height of the title line of every
    flashcard, in drawing order. *)
Fixpoint card_positions (page : nat) (ops : list canvas_op) : list (nat * Z) :=
  match ops with
  | [] => []
  | ShowPage :: ops' => card_positions (S page) ops'
  | DrawString _ y text :: ops' =>
      if startswith text (py "Flashcard #")
      then (page, y) :: card_positions page ops'
      else card_positions page ops'
  | _ :: ops' => card_positions page ops'
  end.

(** The cursor [y] when the loop of [export_to_pdf] reaches its [k]-th
    iteration (counted from 0): it starts at [792 - 50 - 25 - 30] and every
    flashcard takes [15 + 15 + 25] below the place it was drawn at. *)
Fixpoint cursor (k : nat) : Z :=
  match k with
  | O => letter.2 - 50 - 25 - 30
  | S k' =>
      (if cursor k' <? page_threshold then letter.2 - 50 else cursor k')
      - 15 - 15 - 25
  end.

(** Whether a page is begun before the [k]-th flashcard, and the height
    its title line is drawn at. *)
Definition breaks_before (k : nat) : bool := cursor k <? page_threshold.

Definition title_height (k : nat) : Z :=
  if breaks_before k then letter.2 - 50 else cursor k.

(** The pages begun by the first [k] iterations of the loop. *)
Fixpoint pages_begun (k : nat) : nat :=
  match k with
  | O => 0%nat
  | S k' => (pages_begun k' + (if breaks_before k' then 1 else 0))%nat
  end.

(** The page (counted from 0) the [k]-th flashcard is drawn on. *)
Definition page_of (k : nat) : nat := pages_begun (S k).

(** ** The export dialogue (lines 141-163) *)

(** The state of [FlashcardApp] the export reads and writes:
    [self.flashcards] and the text of the status bar. *)
Record FlashcardApp := App {
  app_flashcards : list flashcard;
  app_status : list N
}.

(** A message box shown to the user. *)
Inductive message :=
| ShowInfo (title text : list N)
| ShowError (title text : list N).

(** One run of [export_output]: the exception that left it (if any), the
    application state and the files after it, and the message boxes shown. *)
Record export_run := ExportRun {
  run_raised : option exn;
  run_app : FlashcardApp;
  run_files : gmap (list N) written_file;
  run_shown : list message
}.

(** [self.set_status(msg)] *)
Definition set_status (self : FlashcardApp) (msg : list N)
  : FlashcardApp :=
  App (app_flashcards self) msg.

Section ExportDialogue.

(** [str.lower()], which follows the Unicode case tables. *)
Variable str_lower : list N -> list N.
(** The formatted time of the export. *)
Variable stamp : list N.
(** What the user does: the reply of [simpledialog.askstring] ([None]
    when the dialog is cancelled) and of [filedialog.asksaveasfilename]
    for a given default extension (the empty string when cancelled). *)
Variable askstring : option (list N).
Variable asksaveasfilename : list N -> list N.

(** [export_output], run on the files [fs].  [format_choice.upper()] is
    taken with [upper_ascii]: where it is called, [format_choice] is one
    of the ASCII strings [pdf] and [word].  An exception raised by the
    exporter is not handled: it leaves [export_output] before the status
    is set. *)
Definition export_output (self : FlashcardApp)
    (fs : gmap (list N) written_file)
  : export_run :=
  if decide (app_flashcards self = []) then
    ExportRun None self fs
      [ShowInfo (py "No data") (py "Please generate flashcards first.")]
  else
    match askstring with
    | None => ExportRun (Some none_has_no_strip) self fs []
    | Some typed =>
        let format_choice := str_lower (strip typed) in
        if decide (format_choice ∉ [py "pdf"; py "word"]) then
          ExportRun None self fs
            [ShowError (py "Invalid format")
                       (py "Please enter 'pdf' or 'word'.")]
        else
          let ext :=
            if decide (format_choice = py "pdf") then py ".pdf"
            else py ".docx" in
          let file_path := asksaveasfilename ext in
          if decide (file_path = []) then ExportRun None self fs []
          else
            let exported :=
              if decide (format_choice = py "pdf")
              then Returned
                     (export_to_pdf stamp file_path (app_flashcards self) fs)
              else export_to_word stamp file_path (app_flashcards self) fs in
            match exported with
            | Returned fs' =>
                ExportRun None
                  (set_status self
                     (py "Flashcards exported as "
                      ++ upper_ascii format_choice ++ py "."))
                  fs' []
            | Raised e => ExportRun (Some e) self fs []
            end
    end.

End ExportDialogue.

(** ** The specification's wording of paragraph selection

    Split on newlines, trim, keep the paragraphs whose trimmed length is
    within the bounds, return the first [limit] of them.  This follows the
    words of the specification; [get_relevant_paragraphs] above follows the
    source. *)
Definition spec_selection (text : list N) (min_len max_len limit : Z)
  : list (list N) :=
  take (Z.to_nat limit)
       (filter (within min_len max_len) (strip <$> split NL text)).

(** What the specification promises of a selection [sel] made with the
    given bounds. *)
Definition selection_contract (text : list N) (min_len max_len limit : Z)
    (sel : list (list N)) : Prop :=
  sel = spec_selection text min_len max_len limit
  /\ Forall (fun p => min_len <= len p /\ len p <= max_len) sel
  /\ Z.of_nat (length sel) <= limit.

(** ** A stand-in model, to run the pipeline on concrete texts

    The world counts the calls made so far.  The call numbered [failing]
    raises a [RuntimeError]; every other call returns two questions. *)
Definition sample_model (failing : nat) (prompt : list N) (calls : nat)
  : outcome (list (list N)) * nat :=
  if decide (calls = failing)
  then (Raised (Exn true "RuntimeError" (py "out of memory")), S calls)
  else (Returned [py "What is " ++ take 1 (drop 20 prompt) ++ py "?";
                  py "Why " ++ take 1 (drop 20 prompt) ++ py "?"], S calls).

(** Four lines: 80 times A, a short line, 90 times B, 85 times C. *)
Definition sample_text : list N :=
  join [NL] [replicate 80 65%N; py "short"; replicate 90 66%N;
             replicate 85 67%N].

(** The flashcards of [sample_text] when the second call fails. *)
Definition sample_cards : list flashcard :=
  [ (py "What is A?", replicate 80 65%N); (py "Why A?", replicate 80 65%N);
    (py "What is C?", replicate 85 67%N); (py "Why C?", replicate 85 67%N) ].

(** ** More of the pipeline *)

(** The list comprehension of [get_relevant_paragraphs] before the slice
    [[:limit]] is taken. *)
Definition relevant_lines (text : list N) (min_len max_len : Z)
  : list (list N) :=
  strip <$> filter (fun p => within min_len max_len (strip p)) (split NL text).

(** The default of the parameter [max_flashcards] (line 198). *)
Definition default_max_flashcards : Z := 25.

(** A model that also records the prompts it is given, in call order. *)
Definition recording {world : Type}
    (t5_generate : list N -> world -> outcome (list (list N)) * world)
    (prompt : list N) (s : world * list (list N))
  : outcome (list (list N)) * (world * list (list N)) :=
  let '(o, w') := t5_generate prompt s.1 in (o, (w', s.2 ++ [prompt])).

(** The text drawn on the PDF canvas, read back from the calls: page
    (counted from 0), [x], [y] and string of every [drawString]. *)
Fixpoint drawn_strings (page : nat) (ops : list canvas_op)
  : list (nat * Z * Z * list N) :=
  match ops with
  | [] => []
  | ShowPage :: ops' => drawn_strings (S page) ops'
  | DrawString x y text :: ops' => (page, x, y, text) :: drawn_strings page ops'
  | _ :: ops' => drawn_strings page ops'
  end.

(** The three lines of the [k]-th flashcard (counted from 0) of a PDF. *)
Definition card_lines (k : nat) (c : flashcard)
  : list (nat * Z * Z * list N) :=
  [ (page_of k, 50, title_height k, card_title (S k));
    (page_of k, 50, title_height k - 15, py "Q: " ++ question c);
    (page_of k, 50, title_height k - 15 - 15, py "A: " ++ answer c) ].

(** ** The window (lines 17-139) *)

(** [LIGHT_THEME] and [DARK_THEME] (lines 17-25). *)
Definition LIGHT_THEME : gmap string string :=
  list_to_map
    [ ("bg", "#f5f0e6"); ("fg", "#4b3e2a"); ("btn_bg", "#d6c3b4");
      ("btn_active", "#c7b4a3"); ("text_bg", "#fffaf5");
      ("text_fg", "#4b3e2a"); ("entry_bg", "#fffaf5");
      ("entry_fg", "#4b3e2a"); ("border", "#b8a38c") ].

Definition DARK_THEME : gmap string string :=
  list_to_map
    [ ("bg", "#2c241b"); ("fg", "#e0d4c3"); ("btn_bg", "#5a4b3c");
      ("btn_active", "#7a6957"); ("text_bg", "#3d3429");
      ("text_fg", "#e0d4c3"); ("entry_bg", "#3d3429");
      ("entry_fg", "#e0d4c3"); ("border", "#7a6a5a") ].

(** [d[key]]: a missing key raises [KeyError]. *)
Definition getitem (d : gmap string string) (key : string) : outcome string :=
  match d !! key with
  | Some v => Returned v
  | None => Raised (Exn true "KeyError" (py key))
  end.

#[global] Instance outcome_bind : MBind outcome :=
  fun A B k o => match o with Returned a => k a | Raised e => Raised e end.

(** The colours configured on the widgets: the background of the root
    window, [background] and [foreground] of the title label, [bg], [fg]
    and [insertbackground] of the output box, [background] and
    [foreground] of the status bar. *)
Record colours := Colours {
  root_bg : string;
  title_background : string;
  title_foreground : string;
  output_bg : string;
  output_fg : string;
  output_insertbackground : string;
  status_background : string;
  status_foreground : string
}.

(** The window: the application state of [export_output], [self.theme],
    the colours of the widgets and the text of [self.output_box]; with it
    the system clipboard, which [copy_output] writes. *)
Record window := Window {
  win_app : FlashcardApp;
  win_theme : gmap string string;
  win_colours : colours;
  win_output : list N;
  win_clipboard : list N
}.

Definition with_status (self : window) (msg : list N) : window :=
  Window (set_status (win_app self) msg) (win_theme self) (win_colours self)
         (win_output self) (win_clipboard self).

Definition with_output (self : window) (text : list N) : window :=
  Window (win_app self) (win_theme self) (win_colours self) text
         (win_clipboard self).

Definition with_flashcards (self : window) (flashcards : list flashcard)
  : window :=
  Window (App flashcards (app_status (win_app self))) (win_theme self)
         (win_colours self) (win_output self) (win_clipboard self).

(** [__init__] (lines 28-38): the light theme, no flashcards,
    [apply_theme] for the root window, then [build_layout], which colours
    the title label, the output box and the status bar from the theme and
    sets the status to [Ready]. *)
Definition init (clipboard : list N) : outcome window :=
  let theme := LIGHT_THEME in
  bg ← getitem theme "bg";
  title_bg ← getitem theme "bg";
  title_fg ← getitem theme "fg";
  text_bg ← getitem theme "text_bg";
  text_fg ← getitem theme "text_fg";
  insert ← getitem theme "text_fg";
  status_bg ← getitem theme "bg";
  status_fg ← getitem theme "fg";
  Returned
    (Window (App [] (py "Ready")) theme
       (Colours bg title_bg title_fg text_bg text_fg insert status_bg status_fg)
       [] clipboard).

(** [update_widget_colors] (lines 102-106), for a given theme. *)
Definition update_widget_colors (theme : gmap string string)
  : outcome colours :=
  bg ← getitem theme "bg";
  title_bg ← getitem theme "bg";
  title_fg ← getitem theme "fg";
  text_bg ← getitem theme "text_bg";
  text_fg ← getitem theme "text_fg";
  insert ← getitem theme "text_fg";
  status_bg ← getitem theme "bg";
  status_fg ← getitem theme "fg";
  Returned
    (Colours bg title_bg title_fg text_bg text_fg insert status_bg status_fg).

(** [toggle_theme] (lines 97-100): [apply_theme] sets the background of
    the root window, which [update_widget_colors] sets again with the
    rest. *)
Definition toggle_theme (self : window) : outcome window :=
  let theme :=
    if decide (win_theme self = LIGHT_THEME) then DARK_THEME
    else LIGHT_THEME in
  _ ← getitem theme "bg";
  cs ← update_widget_colors theme;
  Returned (Window (win_app self) theme cs (win_output self)
                   (win_clipboard self)).

(** The text [display_flashcards] inserts for the flashcards from number
    [i] on: [f"Flashcard #{i}\nQ: {q}\nA: {a}\n\n"] for each. *)
Fixpoint display_cards (i : nat) (flashcards : list flashcard) : list N :=
  match flashcards with
  | [] => []
  | (q, a) :: rest =>
      (py "Flashcard #" ++ str_of_nat i ++ [NL]
       ++ py "Q: " ++ q ++ [NL] ++ py "A: " ++ a ++ [NL; NL])
      ++ display_cards (S i) rest
  end.

(** [display_flashcards] (lines 125-131): the output box is emptied and
    filled again. *)
Definition display_flashcards (self : window) (flashcards : list flashcard)
  : window :=
  if decide (flashcards = []) then
    with_output self (py "No flashcards could be generated.")
  else with_output self (display_cards 1 flashcards).

(** [copy_output] (lines 133-139).  [output_box.get("1.0", tk.END)] is the
    text of the box followed by the newline a Tk text widget ends with. *)
Definition copy_output (self : window) : window :=
  let text := strip (win_output self ++ [NL]) in
  if decide (text <> []) then
    with_status
      (Window (win_app self) (win_theme self) (win_colours self)
              (win_output self) text)
      (py "Output copied to clipboard.")
  else with_status self (py "Nothing to copy.").

(** One run of [load_file]: the exception that left it (if any), the
    window and the model's world after it, the lines printed and the
    message boxes shown. *)
Record load_run (world : Type) := LoadRun {
  load_raised : option exn;
  load_window : window;
  load_world : world;
  load_printed : list (list N);
  load_shown : list message
}.
Arguments LoadRun {world} _ _ _ _ _.
Arguments load_raised {world} _.
Arguments load_window {world} _.
Arguments load_world {world} _.
Arguments load_printed {world} _.
Arguments load_shown {world} _.

Section Loading.

Variable open_read : list N -> outcome (list N).
Variable docx_paragraphs : list N -> outcome (list (list N)).
Variable pdf_pages : list N -> outcome (list (list N)).
Variable world : Type.
Variable t5_generate : list N -> world -> outcome (list (list N)) * world.

(** What happens to an exception raised inside the [try] of [load_file]:
    the handler [except Exception] reports it, anything else goes on. *)
Definition load_failed (self : window) (e : exn) (w : world)
    (printed : list (list N)) : load_run world :=
  if exn_is_Exception e then
    LoadRun None (with_status self (py "Error occurred.")) w printed
      [ShowError (py "Error")
                 (py "Failed to process file:" ++ [NL] ++ exn_msg e)]
  else LoadRun (Some e) self w printed [].

(** [load_file] (lines 108-123); [file_path] is the reply of
    [filedialog.askopenfilename], empty when the dialog is cancelled. *)
Definition load_file (file_path : list N) (self : window) (w : world)
  : load_run world :=
  if decide (file_path = []) then LoadRun None self w [] []
  else
    let self1 := with_status self (py "Processing file...") in
    match extract_text open_read docx_paragraphs pdf_pages file_path with
    | Raised e => load_failed self1 e w []
    | Returned text =>
        let self2 :=
          with_output self1 (py "Generating flashcards..." ++ [NL]) in
        match generate_flashcards t5_generate text default_max_flashcards w with
        | (Raised e, out, w') => load_failed self2 e w' out
        | (Returned flashcards, out, w') =>
            let self3 := with_flashcards self2 flashcards in
            let self4 := display_flashcards self3 flashcards in
            LoadRun None
              (with_status self4 (py "Flashcards generated successfully."))
              w' out []
        end
    end.

End Loading.

Arguments load_failed {world} self e w printed.
Arguments load_file open_read docx_paragraphs pdf_pages {world} t5_generate
  file_path self w.

(** The theme is one of the two and the widgets have its colours. *)
Definition themed (self : window) : Prop :=
  (win_theme self = LIGHT_THEME \/ win_theme self = DARK_THEME)
  /\ update_widget_colors (win_theme self) = Returned (win_colours self).

(** Stand-ins to run the callbacks: the window as [__init__] leaves it,
    the same window in the dark theme, and a reader that finds
    [sample_text] in every text file. *)
Definition sample_window : window :=
  Window (App [] (py "Ready")) LIGHT_THEME
    (Colours "#f5f0e6" "#f5f0e6" "#4b3e2a" "#fffaf5" "#4b3e2a" "#4b3e2a"
             "#f5f0e6" "#4b3e2a")
    [] [].

Definition sample_dark_window : window :=
  Window (App [] (py "Ready")) DARK_THEME
    (Colours "#2c241b" "#2c241b" "#e0d4c3" "#3d3429" "#e0d4c3" "#e0d4c3"
             "#2c241b" "#e0d4c3")
    [] [].

Definition sample_reader (path : list N) : outcome (list N) :=
  Returned sample_text.

(** [export_output] as a callback of the window. *)
Definition window_export (run : export_run) (self : window) : window :=
  Window (run_app run) (win_theme self) (win_colours self) (win_output self)
         (win_clipboard self).

(** One callback of the window, from a state with the files [fs] and the
    model's world [w] to the next. *)
Inductive callback {world : Type}
    (open_read : list N -> outcome (list N))
    (docx_paragraphs pdf_pages : list N -> outcome (list (list N)))
    (t5_generate : list N -> world -> outcome (list (list N)) * world)
    (str_lower : list N -> list N)
  : window * gmap (list N) written_file * world ->
    window * gmap (list N) written_file * world -> Prop :=
| cb_toggle self self' fs w :
    toggle_theme self = Returned self' ->
    callback open_read docx_paragraphs pdf_pages t5_generate str_lower
             (self, fs, w) (self', fs, w)
| cb_copy self fs w :
    callback open_read docx_paragraphs pdf_pages t5_generate str_lower
             (self, fs, w) (copy_output self, fs, w)
| cb_load file_path self fs w :
    callback open_read docx_paragraphs pdf_pages t5_generate str_lower
             (self, fs, w)
             (load_window (load_file open_read docx_paragraphs pdf_pages
                                     t5_generate file_path self w),
              fs,
              load_world (load_file open_read docx_paragraphs pdf_pages
                                    t5_generate file_path self w))
| cb_export stamp askstring asksaveasfilename self fs w :
    callback open_read docx_paragraphs pdf_pages t5_generate str_lower
             (self, fs, w)
             (window_export
                (export_output str_lower stamp askstring asksaveasfilename
                               (win_app self) fs) self,
              run_files
                (export_output str_lower stamp askstring asksaveasfilename
                               (win_app self) fs),
              w).

(** * Properties *)

(** ** Strings *)

Section StringFacts.

Implicit Types (s t sub : list N) (c sep : N).

Lemma lstrip_clean_head s : clean_head (lstrip s).
Proof.
  induction s as [|c s IH]; simpl; [done|].
  destruct (isspace c) eqn:Hc; [done|]. simpl. done.
Qed.

Lemma lstrip_id s : clean_head s -> lstrip s = s.
Proof. destruct s as [|c s]; simpl; [done|]. by intros ->. Qed.

Lemma lstrip_app_clean s c t :
  isspace c = false -> lstrip (s ++ c :: t) = lstrip s ++ c :: t.
Proof.
  intros Hc. induction s as [|d s IH]; simpl.
  - by rewrite Hc.
  - by destruct (isspace d).
Qed.

Lemma rstrip_cons_clean c s :
  isspace c = false -> rstrip (c :: s) = c :: rstrip s.
Proof.
  intros Hc. unfold rstrip.
  rewrite reverse_cons, lstrip_app_clean by done.
  by rewrite reverse_app.
Qed.

Lemma rstrip_clean_head s : clean_head s -> clean_head (rstrip s).
Proof.
  destruct s as [|c s]; simpl; [done|].
  intros Hc. by rewrite rstrip_cons_clean.
Qed.

Lemma rstrip_idemp s : rstrip (rstrip s) = rstrip s.
Proof.
  unfold rstrip. rewrite reverse_involutive.
  by rewrite (lstrip_id (lstrip _)) by apply lstrip_clean_head.
Qed.

Lemma strip_idemp s : strip (strip s) = strip s.
Proof.
  unfold strip.
  rewrite (lstrip_id (rstrip _)).
  - apply rstrip_idemp.
  - apply rstrip_clean_head, lstrip_clean_head.
Qed.

Lemma lstrip_suffix s : exists pre, s = pre ++ lstrip s.
Proof.
  induction s as [|c s [pre IH]]; simpl.
  - by exists [].
  - destruct (isspace c).
    + exists (c :: pre). simpl. by f_equal.
    + by exists [].
Qed.

Lemma rstrip_prefix s : exists post, s = rstrip s ++ post.
Proof.
  unfold rstrip. destruct (lstrip_suffix (reverse s)) as [pre Hpre].
  exists (reverse pre).
  rewrite <- reverse_app, <- Hpre. by rewrite reverse_involutive.
Qed.

Lemma strip_infix s : exists pre post, s = pre ++ strip s ++ post.
Proof.
  destruct (lstrip_suffix s) as [pre Hpre].
  destruct (rstrip_prefix (lstrip s)) as [post Hpost].
  exists pre, post. unfold strip. by rewrite <- Hpost.
Qed.

Lemma split_not_nil sep s : split sep s <> [].
Proof.
  destruct s as [|c s]; simpl; [done|].
  destruct (c =? sep)%N; [done|]. by destruct (split sep s).
Qed.

Lemma join_split sep s : join [sep] (split sep s) = s.
Proof.
  induction s as [|c s IH]; simpl; [done|].
  destruct (N.eqb_spec c sep) as [->|Hne].
  - pose proof (split_not_nil sep s) as Hn.
    simpl. destruct (split sep s) as [|seg segs]; [done|].
    simpl in *. by rewrite IH.
  - pose proof (split_not_nil sep s) as Hn.
    destruct (split sep s) as [|seg segs]; [done|].
    destruct segs; simpl in *; by rewrite <- IH.
Qed.

Lemma split_no_sep sep s : Forall (fun seg => sep ∉ seg) (split sep s).
Proof.
  induction s as [|c s IH]; simpl.
  - constructor; [|done]. by intros ?%elem_of_nil.
  - destruct (N.eqb_spec c sep) as [->|Hne].
    + constructor; [|done]. by intros ?%elem_of_nil.
    + destruct (split sep s) as [|seg segs].
      * constructor; [|done]. intros ?%list_elem_of_singleton. congruence.
      * inversion_clear IH as [|?? Hseg Hsegs]. constructor; [|done].
        intros [?|?]%elem_of_cons; [congruence|done].
Qed.

Lemma split_segment sep seg :
  sep ∉ seg -> split sep seg = [seg].
Proof.
  induction seg as [|c seg IH]; simpl; [done|].
  intros Hn. destruct (N.eqb_spec c sep) as [->|Hne].
  - exfalso. apply Hn. by left.
  - rewrite IH; [done|]. intros ?. apply Hn. by right.
Qed.

Lemma split_app_sep sep seg s :
  sep ∉ seg -> split sep (seg ++ sep :: s) = seg :: split sep s.
Proof.
  induction seg as [|c seg IH]; simpl; intros Hn.
  - by rewrite N.eqb_refl.
  - destruct (N.eqb_spec c sep) as [->|Hne].
    + exfalso. apply Hn. by left.
    + rewrite IH; [done|]. intros ?. apply Hn. by right.
Qed.

(** [split] is the only way to cut a text at its separators. *)
Lemma split_join sep (segs : list (list N)) :
  segs <> [] -> Forall (fun seg => sep ∉ seg) segs ->
  split sep (join [sep] segs) = segs.
Proof.
  induction segs as [|seg segs IH]; [done|].
  intros _ Hall. inversion_clear Hall as [|?? Hseg Hsegs].
  destruct segs as [|seg' segs].
  - simpl. by apply split_segment.
  - change (join [sep] (seg :: seg' :: segs))
      with (seg ++ sep :: join [sep] (seg' :: segs)).
    rewrite split_app_sep by done. f_equal. by apply IH.
Qed.

Lemma join_infix sep (segs : list (list N)) seg :
  seg ∈ segs -> exists pre post, join [sep] segs = pre ++ seg ++ post.
Proof.
  induction segs as [|p ps IH]; [by intros ?%elem_of_nil|].
  intros [->|Hin]%elem_of_cons.
  - destruct ps as [|p' ps].
    + exists [], []. simpl. by rewrite app_nil_r.
    + exists [], (sep :: join [sep] (p' :: ps)). done.
  - destruct (IH Hin) as (pre & post & Heq).
    destruct ps as [|p' ps]; [by apply elem_of_nil in Hin|].
    exists (p ++ sep :: pre), post.
    change (join [sep] (p :: p' :: ps))
      with (p ++ sep :: join [sep] (p' :: ps)).
    rewrite Heq. by rewrite <- app_assoc.
Qed.

Lemma split_infix sep s seg :
  seg ∈ split sep s -> exists pre post, s = pre ++ seg ++ post.
Proof.
  intros Hin. destruct (join_infix sep _ _ Hin) as (pre & post & Heq).
  rewrite join_split in Heq. eauto.
Qed.

Lemma startswith_prefix s sub :
  startswith s sub = true <-> exists post, s = sub ++ post.
Proof.
  revert s. induction sub as [|a sub IH]; intros s; simpl.
  - split; [by exists s|done].
  - destruct s as [|c s].
    + split; [done|]. by intros [? ?].
    + rewrite andb_true_iff, IH, N.eqb_eq. split.
      * intros [-> [post ->]]. by exists post.
      * intros [post [= -> ->]]. eauto.
Qed.

(** [sub in s] holds exactly of the contiguous pieces of [s]. *)
Lemma contains_infix s sub :
  contains s sub = true <-> exists pre post, s = pre ++ sub ++ post.
Proof.
  induction s as [|c s IH]; simpl.
  - rewrite orb_false_r, startswith_prefix. split.
    + intros [post ->]. by exists [], post.
    + intros (pre & post & Heq). destruct pre; [by exists post|done].
  - rewrite orb_true_iff, startswith_prefix, IH. split.
    + intros [[post ->]|(pre & post & ->)].
      * by exists [], post.
      * by exists (c :: pre), post.
    + intros (pre & post & Heq). destruct pre as [|d pre].
      * left. by exists post.
      * right. injection Heq as -> ->. by exists pre, post.
Qed.

Lemma slice_to_prefix {A} (l : list A) stop : slice_to l stop `prefix_of` l.
Proof.
  unfold slice_to. destruct (stop <? 0); apply prefix_take.
Qed.

Lemma slice_to_nonneg {A} (l : list A) stop :
  0 <= stop -> slice_to l stop = take (Z.to_nat stop) l.
Proof.
  intros H. unfold slice_to. destruct (Z.ltb_spec stop 0); [lia|done].
Qed.

End StringFacts.

Example strip_both_ends :
  strip (py "  two words" ++ [NL]) = py "two words".
Proof. reflexivity. Qed.

Example split_trailing_newline :
  split NL (py "a" ++ [NL]) = [py "a"; []] /\ split NL [] = [[]].
Proof. split; reflexivity. Qed.

Example str_of_nat_12 : str_of_nat 12 = py "12" /\ str_of_nat 0 = py "0".
Proof. split; reflexivity. Qed.

Example slice_to_cases :
  slice_to [1; 2; 3] 2 = [1; 2] /\ slice_to [1; 2; 3] 5 = [1; 2; 3]
  /\ slice_to [1; 2; 3] (-1) = [1; 2] /\ slice_to [1; 2; 3] (-7) = [].
Proof. repeat split; reflexivity. Qed.

(** ** Paragraph selection *)

Section Selection.

Implicit Types (text p : list N) (min_len max_len limit : Z).

Lemma filter_fmap_strip min_len max_len (l : list (list N)) :
  filter (within min_len max_len) (strip <$> l)
  = strip <$> filter (fun p => within min_len max_len (strip p)) l.
Proof.
  induction l as [|p l IH]; [done|].
  rewrite fmap_cons, !filter_cons. rewrite IH.
  by destruct (decide (within min_len max_len (strip p))).
Qed.

(** The list the slice of [get_relevant_paragraphs] is taken from. *)
Lemma selection_prefix text min_len max_len limit :
  get_relevant_paragraphs text min_len max_len limit
  `prefix_of`
  filter (within min_len max_len) (strip <$> split NL text).
Proof.
  unfold get_relevant_paragraphs. rewrite filter_fmap_strip.
  apply slice_to_prefix.
Qed.

Lemma selection_elem text min_len max_len limit p :
  p ∈ get_relevant_paragraphs text min_len max_len limit ->
  within min_len max_len p
  /\ exists seg, seg ∈ split NL text /\ p = strip seg.
Proof.
  intros Hin.
  pose proof (elem_of_prefix _ _ _ Hin
                (selection_prefix text min_len max_len limit)) as Hp.
  apply list_elem_of_filter in Hp as [Hw Hp].
  apply list_elem_of_fmap in Hp as (seg & -> & Hseg). eauto.
Qed.

(** Every selected paragraph is a contiguous piece of the text. *)
Lemma selection_infix text min_len max_len limit p :
  p ∈ get_relevant_paragraphs text min_len max_len limit ->
  exists pre post, text = pre ++ p ++ post.
Proof.
  intros (_ & seg & Hseg & ->)%selection_elem.
  destruct (split_infix _ _ _ Hseg) as (pre & post & ->).
  destruct (strip_infix seg) as (pre' & post' & Hs).
  exists (pre ++ pre'), (post' ++ post).
  rewrite Hs at 1. by rewrite <- !app_assoc.
Qed.

Lemma selection_within text min_len max_len limit :
  Forall (fun p => min_len <= len p /\ len p <= max_len)
         (get_relevant_paragraphs text min_len max_len limit).
Proof.
  apply Forall_forall. intros p [Hw _]%selection_elem. exact Hw.
Qed.

(** The specification's example: of a line of 90 characters and a line
    of 10, the bounds (80, 400, 25) select the first. *)
Example select_90_not_10 :
  get_relevant_paragraphs
    (replicate 90 65%N ++ [NL] ++ replicate 10 66%N)
    default_min_len default_max_len default_limit
  = [replicate 90 65%N].
Proof. by vm_compute. Qed.

(** C2 (as amended).  For every text, every pair of length bounds and
    every [limit], no paragraph [get_relevant_paragraphs] returns is
    shorter than [min_len] or longer than [max_len].  For every count
    [limit >= 0] it returns exactly the trimmed newline-separated segments
    whose trimmed length lies between [min_len] and [max_len] inclusive,
    cut to the first [limit] of them in their original order, and so at
    most [limit] of them.  The segments are those of [split]: joined by
    newlines they give the text back and none contains a newline. *)
Theorem selection_meets_contract text min_len max_len limit :
  Forall (fun p => min_len <= len p /\ len p <= max_len)
         (get_relevant_paragraphs text min_len max_len limit)
  /\ join [NL] (split NL text) = text
  /\ Forall (fun seg => NL ∉ seg) (split NL text)
  /\ (0 <= limit ->
      selection_contract text min_len max_len limit
        (get_relevant_paragraphs text min_len max_len limit)).
Proof.
  split; [apply selection_within|].
  split; [apply join_split|]. split; [apply split_no_sep|].
  intros Hlimit.
  assert (get_relevant_paragraphs text min_len max_len limit
          = spec_selection text min_len max_len limit) as Heq.
  { unfold get_relevant_paragraphs, spec_selection.
    by rewrite slice_to_nonneg, filter_fmap_strip. }
  split; [exact Heq|]. split; [apply selection_within|].
  rewrite Heq. unfold spec_selection. rewrite length_take. lia.
Qed.

(** The specification's example: with [limit = 2] and five qualifying
    paragraphs the first two are returned, in their order. *)
Lemma selection_meets_contract_witness :
  0 <= 2
  /\ get_relevant_paragraphs
       (py_lines ["one"; "two"; "three"; "four"; "five"]) 3 5 2
     = [py "one"; py "two"]
  /\ selection_contract
       (py_lines ["one"; "two"; "three"; "four"; "five"]) 3 5 2
       (get_relevant_paragraphs
          (py_lines ["one"; "two"; "three"; "four"; "five"]) 3 5 2).
Proof.
  split; [lia|]. split; [reflexivity|].
  apply (selection_meets_contract
           (py_lines ["one"; "two"; "three"; "four"; "five"]) 3 5 2).
  lia.
Defined.

(** C2 fails as stated for a negative [limit]: the slice [[:limit]] then
    drops the last [-limit] paragraphs instead of keeping none, so that
    [limit = -1] on three qualifying lines returns the first two, which
    are more than [limit] and not the first [limit] of them. *)
Lemma selection_negative_limit :
  get_relevant_paragraphs (py_lines ["aa"; "bb"; "cc"]) 1 5 (-1)
  = [py "aa"; py "bb"]
  /\ ~ selection_contract (py_lines ["aa"; "bb"; "cc"]) 1 5 (-1)
         (get_relevant_paragraphs (py_lines ["aa"; "bb"; "cc"]) 1 5 (-1)).
Proof.
  split; [reflexivity|].
  intros (_ & _ & Hlen). revert Hlen. vm_compute. intros H. by apply H.
Qed.

(** C10.  Every paragraph returned by [get_relevant_paragraphs], for
    whatever text and bounds, has no white space at either end:
    [strip] leaves it as it is. *)
Theorem selected_paragraphs_are_trimmed text min_len max_len limit :
  Forall (fun p => strip p = p)
         (get_relevant_paragraphs text min_len max_len limit).
Proof.
  apply Forall_forall. intros p (_ & seg & _ & ->)%selection_elem.
  apply strip_idemp.
Qed.

End Selection.

(** ** Flashcard generation *)

Section GenerationFacts.

Context {world : Type}.
Variable t5_generate : list N -> world -> outcome (list (list N)) * world.

Implicit Types (paras : list (list N)) (cards acc : list flashcard)
               (out : list (list N)) (w : world).

(** When the loop returns, every call was survivable and the loop has
    appended the cards of the batch and printed its error lines. *)
Lemma loop_returned paras acc out w cards out' w' :
  flashcards_loop t5_generate paras acc out w = (Returned cards, out', w') ->
  Forall survivable (outcomes t5_generate paras w)
  /\ cards = acc ++ batch_cards paras (outcomes t5_generate paras w)
  /\ out' = out ++ error_lines (outcomes t5_generate paras w).
Proof.
  revert acc out w. induction paras as [|para rest IH]; intros acc out w; simpl.
  - intros [= <- <- <-]. by rewrite !app_nil_r.
  - destruct (generate_questions t5_generate para w) as [[qs|e] w1].
    + intros (Hs & -> & ->)%IH. split; [by constructor|].
      unfold batch_cards. simpl. by rewrite <- app_assoc.
    + destruct (exn_is_Exception e) eqn:He; [|done].
      intros (Hs & -> & ->)%IH. split; [by constructor|].
      unfold batch_cards. simpl. by rewrite <- app_assoc.
Qed.

(** Conversely the loop does return when every call is survivable. *)
Lemma loop_survives paras acc out w :
  Forall survivable (outcomes t5_generate paras w) ->
  exists w',
    flashcards_loop t5_generate paras acc out w
    = (Returned (acc ++ batch_cards paras (outcomes t5_generate paras w)),
       out ++ error_lines (outcomes t5_generate paras w), w').
Proof.
  revert acc out w. induction paras as [|para rest IH]; intros acc out w; simpl.
  - intros _. exists w. by rewrite !app_nil_r.
  - destruct (generate_questions t5_generate para w) as [[qs|e] w1].
    + intros Hs. inversion_clear Hs as [|?? _ Hrest].
      destruct (IH (acc ++ ((fun q => (q, para)) <$> qs)) out w1 Hrest)
        as [w' ->].
      exists w'. unfold batch_cards. simpl. by rewrite <- app_assoc.
    + intros Hs. inversion_clear Hs as [|?? He Hrest]. simpl in He.
      rewrite He.
      destruct (IH acc (out ++ [error_line e]) w1 Hrest) as [w' ->].
      exists w'. unfold batch_cards. simpl. by rewrite <- app_assoc.
Qed.

(** An exception that does not derive from [Exception] is not caught: it
    leaves the loop at the paragraph it was raised for. *)
Lemma loop_interrupted para rest acc out w e w1 :
  generate_questions t5_generate para w = (Raised e, w1) ->
  exn_is_Exception e = false ->
  flashcards_loop t5_generate (para :: rest) acc out w = (Raised e, out, w1).
Proof. intros Hcall He. simpl. by rewrite Hcall, He. Qed.

Lemma cards_of_answer para o c : c ∈ cards_of para o -> answer c = para.
Proof.
  destruct o as [qs|e]; simpl; [|by intros ?%elem_of_nil].
  by intros (q & -> & _)%list_elem_of_fmap.
Qed.

(** A card of the batch comes from the paragraph at some index. *)
Lemma batch_cards_lookup paras os k c :
  batch_cards paras os !! k = Some c ->
  exists pk, paras !! pk = Some (answer c).
Proof.
  unfold batch_cards. revert os k.
  induction paras as [|para rest IH]; intros [|o os] k; simpl; try done.
  intros Hk. apply lookup_app_Some in Hk as [Hk|[_ Hk]].
  - exists 0%nat. simpl. f_equal. symmetry.
    eapply cards_of_answer, list_elem_of_lookup_2, Hk.
  - destruct (IH _ _ Hk) as [pk Hpk]. by exists (S pk).
Qed.

(** Two cards of the batch, the first before the second, come from
    paragraphs in the same order. *)
Lemma batch_cards_ordered paras os i j ci cj :
  batch_cards paras os !! i = Some ci ->
  batch_cards paras os !! j = Some cj ->
  (i < j)%nat ->
  exists pi pj,
    paras !! pi = Some (answer ci) /\ paras !! pj = Some (answer cj)
    /\ (pi <= pj)%nat.
Proof.
  unfold batch_cards. revert os i j.
  induction paras as [|para rest IH]; intros [|o os] i j; simpl; try done.
  intros Hi Hj Hij.
  apply lookup_app_Some in Hi as [Hi|[Hlen Hi]].
  - assert (answer ci = para) as ->
      by (eapply cards_of_answer, list_elem_of_lookup_2, Hi).
    apply lookup_app_Some in Hj as [Hj|[_ Hj]].
    + assert (answer cj = para) as ->
        by (eapply cards_of_answer, list_elem_of_lookup_2, Hj).
      exists 0%nat, 0%nat. done.
    + destruct (batch_cards_lookup _ _ _ _ Hj) as [pj Hpj].
      exists 0%nat, (S pj). simpl. split; [done|]. split; [done|lia].
  - apply lookup_app_Some in Hj as [Hj|[_ Hj]].
    + apply lookup_lt_Some in Hj. lia.
    + destruct (IH os _ _ Hi Hj) as (pi & pj & Hpi & Hpj & Hle); [lia|].
      exists (S pi), (S pj). simpl. split; [done|]. split; [done|lia].
Qed.

(** A paragraph whose call returned has all its cards in the batch. *)
Lemma batch_cards_complete paras os k para qs q :
  paras !! k = Some para -> os !! k = Some (Returned qs) -> q ∈ qs ->
  (q, para) ∈ batch_cards paras os.
Proof.
  unfold batch_cards. revert os k.
  induction paras as [|p rest IH]; intros [|o os] [|k]; simpl; try done.
  - intros [= ->] [= ->] Hq. apply elem_of_app. left.
    simpl. by apply (list_elem_of_fmap_2 (fun q => (q, para))).
  - intros Hp Ho Hq. apply elem_of_app. right. by eapply IH.
Qed.

(** C1.  Whatever the text, every flashcard [generate_flashcards] emits
    has as its answer one of the paragraphs [get_relevant_paragraphs]
    returns on that text with the same bounds (the default lengths and
    [max_flashcards] as the count), and that answer occurs in the text
    as a contiguous piece ([answer in text] is true). *)
Theorem answers_are_selected_paragraphs
    text max_flashcards w cards out w' :
  generate_flashcards t5_generate text max_flashcards w
  = (Returned cards, out, w') ->
  Forall (fun c =>
            answer c ∈ get_relevant_paragraphs
                         text default_min_len default_max_len max_flashcards
            /\ contains text (answer c) = true)
         cards.
Proof.
  intros (_ & -> & _)%loop_returned. simpl.
  apply Forall_forall. intros c [k Hk]%list_elem_of_lookup.
  destruct (batch_cards_lookup _ _ _ _ Hk) as [pk Hpk].
  apply list_elem_of_lookup_2 in Hpk. split; [done|].
  apply contains_infix. by eapply selection_infix.
Qed.

(** C5.  The flashcards are in generation order: of two flashcards at
    positions [i < j], the answer of the first is the selected paragraph
    at some position [pi] and the answer of the second the one at some
    position [pj] with [pi <= pj]. *)
Theorem flashcards_follow_paragraph_order
    text max_flashcards w cards out w' i j ci cj :
  generate_flashcards t5_generate text max_flashcards w
  = (Returned cards, out, w') ->
  cards !! i = Some ci -> cards !! j = Some cj -> (i < j)%nat ->
  exists pi pj,
    get_relevant_paragraphs text default_min_len default_max_len
                            max_flashcards !! pi = Some (answer ci)
    /\ get_relevant_paragraphs text default_min_len default_max_len
                               max_flashcards !! pj = Some (answer cj)
    /\ (pi <= pj)%nat.
Proof.
  intros (_ & -> & _)%loop_returned. simpl. apply batch_cards_ordered.
Qed.

(** C3.  A failure raised while the questions of one paragraph are
    generated (an exception deriving from [Exception], such as a model
    error) is caught: the batch is not aborted.  When every call either
    returns or fails in that way, [generate_flashcards] returns; its
    flashcards are those of all the paragraphs whose call returned,
    earlier and later than the failed ones alike, each with all its
    questions; a failed paragraph contributes no flashcard and one
    printed line. *)
Theorem failed_paragraphs_are_skipped text max_flashcards w :
  Forall survivable
    (outcomes t5_generate
       (get_relevant_paragraphs text default_min_len default_max_len
                                max_flashcards) w) ->
  exists cards w',
    generate_flashcards t5_generate text max_flashcards w
    = (Returned cards,
       error_lines
         (outcomes t5_generate
            (get_relevant_paragraphs text default_min_len default_max_len
                                     max_flashcards) w),
       w')
    /\ cards
       = batch_cards
           (get_relevant_paragraphs text default_min_len default_max_len
                                    max_flashcards)
           (outcomes t5_generate
              (get_relevant_paragraphs text default_min_len default_max_len
                                       max_flashcards) w)
    /\ forall k para qs q,
         get_relevant_paragraphs text default_min_len default_max_len
                                 max_flashcards !! k = Some para ->
         outcomes t5_generate
           (get_relevant_paragraphs text default_min_len default_max_len
                                    max_flashcards) w !! k
         = Some (Returned qs) ->
         q ∈ qs -> (q, para) ∈ cards.
Proof.
  intros Hs. destruct (loop_survives _ [] [] w Hs) as [w' Hrun].
  eexists _, w'. split; [exact Hrun|]. split; [done|].
  intros k para qs q. simpl. apply batch_cards_complete.
Qed.

End GenerationFacts.

(** The stand-in model on [sample_text], its second call failing: the
    flashcards of the first and of the third selected paragraph are there. *)
Lemma answers_are_selected_paragraphs_witness :
  generate_flashcards (sample_model 1) sample_text 25 0%nat
  = (Returned sample_cards,
     [py "Error generating for paragraph: out of memory"], 3%nat)
  /\ Forall (fun c =>
               answer c ∈ get_relevant_paragraphs
                            sample_text default_min_len default_max_len 25
               /\ contains sample_text (answer c) = true)
            sample_cards.
Proof.
  split; [by vm_compute|].
  apply (answers_are_selected_paragraphs (sample_model 1) sample_text 25 0%nat
           sample_cards
           [py "Error generating for paragraph: out of memory"] 3%nat).
  by vm_compute.
Defined.

Lemma flashcards_follow_paragraph_order_witness :
  exists pi pj,
    get_relevant_paragraphs sample_text default_min_len default_max_len 25
      !! pi = Some (replicate 80 65%N)
    /\ get_relevant_paragraphs sample_text default_min_len default_max_len 25
         !! pj = Some (replicate 85 67%N)
    /\ (pi <= pj)%nat.
Proof.
  apply (flashcards_follow_paragraph_order (sample_model 1) sample_text 25
           0%nat sample_cards
           [py "Error generating for paragraph: out of memory"] 3%nat
           1%nat 2%nat
           (py "Why A?", replicate 80 65%N)
           (py "What is C?", replicate 85 67%N)).
  - by vm_compute.
  - reflexivity.
  - reflexivity.
  - lia.
Defined.

Lemma failed_paragraphs_are_skipped_witness :
  exists cards w',
    generate_flashcards (sample_model 1) sample_text 25 0%nat
    = (Returned cards,
       error_lines
         (outcomes (sample_model 1)
            (get_relevant_paragraphs sample_text default_min_len
                                     default_max_len 25) 0%nat),
       w')
    /\ cards
       = batch_cards
           (get_relevant_paragraphs sample_text default_min_len
                                    default_max_len 25)
           (outcomes (sample_model 1)
              (get_relevant_paragraphs sample_text default_min_len
                                       default_max_len 25) 0%nat)
    /\ forall k para qs q,
         get_relevant_paragraphs sample_text default_min_len default_max_len
                                 25 !! k = Some para ->
         outcomes (sample_model 1)
           (get_relevant_paragraphs sample_text default_min_len
                                    default_max_len 25) 0%nat !! k
         = Some (Returned qs) ->
         q ∈ qs -> (q, para) ∈ cards.
Proof.
  apply (failed_paragraphs_are_skipped (sample_model 1) sample_text 25 0%nat).
  vm_compute. repeat constructor.
Defined.

(** ** Text extraction *)

Section ExtractionFacts.

Variable open_read : list N -> outcome (list N).
Variable docx_paragraphs : list N -> outcome (list (list N)).
Variable pdf_pages : list N -> outcome (list (list N)).

Abbreviation extract :=
  (extract_text open_read docx_paragraphs pdf_pages).

Lemma endswith_last s suffix c rest :
  reverse suffix = c :: rest -> endswith s suffix = true ->
  head (reverse s) = Some c.
Proof.
  unfold endswith. intros ->. destruct (reverse s) as [|d r]; simpl; [done|].
  intros [->%N.eqb_eq _]%andb_true_iff. done.
Qed.

(** No path ends in two of the three suffixes. *)
Lemma txt_not_docx path :
  endswith path (py ".docx") = true -> endswith path (py ".txt") = false.
Proof.
  intros H1. destruct (endswith path (py ".txt")) eqn:H2; [|done].
  eapply endswith_last in H1; [|reflexivity].
  eapply endswith_last in H2; [|reflexivity].
  rewrite H1 in H2. by vm_compute in H2.
Qed.

Lemma txt_docx_not_pdf path :
  endswith path (py ".pdf") = true ->
  endswith path (py ".txt") = false /\ endswith path (py ".docx") = false.
Proof.
  intros H1. eapply endswith_last in H1; [|reflexivity]. split.
  - destruct (endswith path (py ".txt")) eqn:H2; [|done].
    eapply endswith_last in H2; [|reflexivity].
    rewrite H1 in H2. by vm_compute in H2.
  - destruct (endswith path (py ".docx")) eqn:H2; [|done].
    eapply endswith_last in H2; [|reflexivity].
    rewrite H1 in H2. by vm_compute in H2.
Qed.

Lemma foldl_app_concat (acc : list N) (pages : list (list N)) :
  foldl (fun text page => text ++ page) acc pages = acc ++ concat pages.
Proof.
  revert acc. induction pages as [|page pages IH]; intros acc; simpl.
  - by rewrite app_nil_r.
  - by rewrite IH, <- app_assoc.
Qed.

Lemma strip_nil_inv (t : list N) : strip t <> [] -> t <> [].
Proof. by intros H ->. Qed.

Lemma join_nonempty (parts : list (list N)) :
  Exists (fun t => t <> []) parts -> join [NL] parts <> [].
Proof.
  intros (t & Hin & Ht)%Exists_exists.
  destruct (join_infix NL _ _ Hin) as (pre & post & ->).
  destruct t; [done|]. by destruct pre.
Qed.

Lemma concat_nonempty (pages : list (list N)) :
  Exists (fun t => t <> []) pages -> concat pages <> [].
Proof.
  induction 1 as [page pages Hp|page pages _ IH]; simpl.
  - by destruct page.
  - intros [_ ?]%app_eq_nil. done.
Qed.

(** C4.  A path that ends in none of [.txt], [.docx], [.pdf] makes
    [extract_text] raise [ValueError("Unsupported file type.")] instead
    of returning text (no decoder is consulted).  A path that ends in
    one of them gets the content of the file as one string: what reading
    the text file gives, the non-blank paragraphs of the word-processor
    document joined by newlines, the texts of the pages of the PDF one
    after the other; a failure of the decoder is passed on. *)
Theorem extract_text_by_extension path :
  (endswith path (py ".txt") = false ->
   endswith path (py ".docx") = false ->
   endswith path (py ".pdf") = false ->
   extract path = Raised unsupported_file_type)
  /\ (endswith path (py ".txt") = true ->
      extract path = open_read path)
  /\ (endswith path (py ".docx") = true ->
      extract path
      = match docx_paragraphs path with
        | Returned paragraphs =>
            Returned (join [NL] (filter non_blank paragraphs))
        | Raised e => Raised e
        end)
  /\ (endswith path (py ".pdf") = true ->
      extract path
      = match pdf_pages path with
        | Returned pages => Returned (concat pages)
        | Raised e => Raised e
        end).
Proof.
  unfold extract_text. repeat split.
  - by intros -> -> ->.
  - by intros ->.
  - intros H. by rewrite (txt_not_docx _ H), H.
  - intros H. destruct (txt_docx_not_pdf _ H) as [-> ->]. rewrite H.
    unfold extract_text_from_pdf. destruct (pdf_pages path); [|done].
    by rewrite foldl_app_concat.
Qed.

(** C9 (as amended).  For each of the three formats, when the document
    decodes to something that holds text, [extract_text] returns a
    non-empty string; for a word-processor document the text that counts
    is a paragraph that is not blank (not made of white space only). *)
Theorem extraction_of_nonempty_source path :
  source_has_text open_read docx_paragraphs pdf_pages non_blank path ->
  extracts_text open_read docx_paragraphs pdf_pages path.
Proof.
  unfold extracts_text, extract_text.
  intros [(Ht & content & Hread & Hne)
         |[(Hd & ps & Hps & Hex)|(Hp & pages & Hpages & Hex)]].
  - rewrite Ht. eauto.
  - rewrite (txt_not_docx _ Hd), Hd. unfold extract_text_from_docx.
    rewrite Hps. eexists. split; [done|]. apply join_nonempty.
    apply Exists_exists in Hex as (t & Hin & Ht).
    apply Exists_exists. exists t. split.
    + by apply list_elem_of_filter.
    + by apply strip_nil_inv.
  - destruct (txt_docx_not_pdf _ Hp) as [-> ->]. rewrite Hp.
    unfold extract_text_from_pdf. rewrite Hpages.
    eexists. split; [done|]. rewrite foldl_app_concat. simpl.
    by apply concat_nonempty.
Qed.

End ExtractionFacts.

Lemma extract_text_by_extension_witness :
  extract_text sample_open_read sample_docx sample_pdf (py "notes.md")
  = Raised unsupported_file_type
  /\ extract_text sample_open_read sample_docx sample_pdf (py "notes.txt")
     = Returned (py "plain text")
  /\ extract_text sample_open_read sample_docx sample_pdf (py "notes.docx")
     = Returned (py_lines ["first"; "second"])
  /\ extract_text sample_open_read sample_docx sample_pdf (py "notes.pdf")
     = Returned (py "page one page two").
Proof.
  split; [|split; [|split]].
  - apply (extract_text_by_extension sample_open_read sample_docx sample_pdf
             (py "notes.md")); reflexivity.
  - apply (extract_text_by_extension sample_open_read sample_docx sample_pdf
             (py "notes.txt")); reflexivity.
  - apply (extract_text_by_extension sample_open_read sample_docx sample_pdf
             (py "notes.docx")); reflexivity.
  - apply (extract_text_by_extension sample_open_read sample_docx sample_pdf
             (py "notes.pdf")); reflexivity.
Defined.

Lemma extraction_of_nonempty_source_witness :
  extracts_text sample_open_read sample_docx sample_pdf (py "notes.docx").
Proof.
  apply (extraction_of_nonempty_source sample_open_read sample_docx sample_pdf
           (py "notes.docx")).
  right. left. split; [reflexivity|].
  exists [py "first"; py "  "; py "second"]. split; [reflexivity|].
  apply Exists_cons_hd. by vm_compute.
Defined.

(** C9 fails as stated for a word-processor document whose paragraphs are
    all blank: the document below is not empty (its paragraph holds three
    spaces) and [extract_text] returns the empty string for it. *)
Lemma blank_docx_extracts_nothing :
  source_has_text sample_open_read blank_docx sample_pdf
                  (fun t => t <> []) (py "notes.docx")
  /\ extract_text sample_open_read blank_docx sample_pdf (py "notes.docx")
     = Returned []
  /\ ~ extracts_text sample_open_read blank_docx sample_pdf (py "notes.docx").
Proof.
  split; [|split].
  - right. left. split; [reflexivity|].
    exists [py "   "]. split; [reflexivity|]. by apply Exists_cons_hd.
  - reflexivity.
  - intros (text & Heq & Hne). vm_compute in Heq. congruence.
Qed.

(** ** Page layout of the PDF exporter *)

Section Layout.

Lemma card_title_is_title i :
  startswith (card_title i) (py "Flashcard #") = true.
Proof. apply startswith_prefix. by exists (str_of_nat i). Qed.

Lemma cursor_step k : cursor (S k) = title_height k - 55.
Proof. unfold title_height, breaks_before. simpl. lia. Qed.

(** The loop started at its [k]-th iteration draws its flashcards where
    [page_of] and [title_height] say, whatever their content. *)
Lemma pdf_cards_positions cards k i tail :
  card_positions (pages_begun k)
                 (pdf_cards letter.2 (cursor k) i cards ++ tail)
  = ((fun j => (page_of j, title_height j)) <$> seq k (length cards))
    ++ card_positions (pages_begun (k + length cards)) tail.
Proof.
  revert k i. induction cards as [|[q a] rest IH]; intros k i.
  - simpl. by rewrite Nat.add_0_r.
  - cbn [pdf_cards length seq fmap list_fmap].
    replace (k + S (length rest))%nat with (S k + length rest)%nat by lia.
    specialize (IH (S k) (S i)). rewrite cursor_step in IH.
    unfold page_of, title_height, breaks_before in *.
    cbn [pages_begun] in *. unfold breaks_before in *.
    destruct (cursor k <? page_threshold) eqn:Hb.
    + rewrite Nat.add_1_r in *. cbn [app card_positions].
      rewrite card_title_is_title. cbn [app]. f_equal.
      change (startswith (py "Q: " ++ q) (py "Flashcard #")) with false.
      change (startswith (py "A: " ++ a) (py "Flashcard #")) with false.
      cbn iota. replace (letter.2 - 50 - 15 - 15 - 25)
        with (letter.2 - 50 - 55) by lia.
      exact IH.
    + rewrite Nat.add_0_r in *. cbn [app card_positions].
      rewrite card_title_is_title. cbn [app]. f_equal.
      change (startswith (py "Q: " ++ q) (py "Flashcard #")) with false.
      change (startswith (py "A: " ++ a) (py "Flashcard #")) with false.
      cbn iota. replace (cursor k - 15 - 15 - 25)
        with (cursor k - 55) by lia.
      exact IH.
Qed.

(** The cursor after [k] flashcards, in closed form. *)
Lemma cursor_closed k : cursor k = 687 - 55 * Z.of_nat (k mod 12).
Proof.
  induction k as [|k IH]; [done|].
  rewrite cursor_step. unfold title_height, breaks_before. rewrite IH.
  unfold page_threshold. cbn [letter snd].
  assert (Z.of_nat (S k mod 12)
          = if decide (k mod 12 = 11)%nat then 0
            else Z.of_nat (k mod 12) + 1) as ->.
  { pose proof (Nat.mod_upper_bound k 12).
    pose proof (Nat.mod_upper_bound (S k) 12).
    pose proof (Nat.div_mod_eq k 12). pose proof (Nat.div_mod_eq (S k) 12).
    case_decide; nia. }
  pose proof (Nat.mod_upper_bound k 12).
  case_decide; destruct (Z.ltb_spec (687 - 55 * Z.of_nat (k mod 12)) 100);
    lia.
Qed.

Lemma breaks_before_closed k :
  breaks_before k = bool_decide (k mod 12 = 11)%nat.
Proof.
  unfold breaks_before, page_threshold. rewrite cursor_closed.
  pose proof (Nat.mod_upper_bound k 12).
  case_bool_decide; destruct (Z.ltb_spec (687 - 55 * Z.of_nat (k mod 12)) 100);
    try done; lia.
Qed.

Lemma pages_begun_closed k : pages_begun k = (k / 12)%nat.
Proof.
  induction k as [|k IH]; [done|].
  cbn [pages_begun]. rewrite IH, breaks_before_closed.
  pose proof (Nat.mod_upper_bound k 12).
  pose proof (Nat.mod_upper_bound (S k) 12).
  pose proof (Nat.div_mod_eq k 12). pose proof (Nat.div_mod_eq (S k) 12).
  case_bool_decide; nia.
Qed.

(** Thirteen flashcards: eleven on the first page, the twelfth and the
    thirteenth at the top of the second. *)
Example thirteen_cards stamp c :
  card_positions 0 (pdf_canvas stamp (replicate 13 c))
  = (fun '(page, y) => (Z.to_nat page, y))
    <$> [ (0, 687); (0, 632); (0, 577); (0, 522); (0, 467); (0, 412);
          (0, 357); (0, 302); (0, 247); (0, 192); (0, 137);
          (1, 742); (1, 687) ].
Proof. destruct c as [q a]. reflexivity. Qed.

(** C8.  In [export_to_pdf] a page is begun before a flashcard exactly
    when the cursor, the space left above the bottom of the page, is
    below the threshold 100 at that point.  Where a flashcard lands is a
    function of how many flashcards came before it and of nothing else:
    each takes 55 units, so that the first page holds 11 flashcards and
    every later one 12, whatever the questions and answers are. *)
Theorem pdf_pages_depend_on_count_only stamp cards :
  card_positions 0 (pdf_canvas stamp cards)
  = (fun k => (page_of k, title_height k)) <$> seq 0 (length cards)
  /\ (forall k, page_of k
                = (pages_begun k
                   + if (cursor k <? page_threshold)%Z then 1 else 0)%nat)
  /\ (forall k, cursor k = 687 - 55 * Z.of_nat (k mod 12))
  /\ (forall k, page_of k = (S k / 12)%nat).
Proof.
  split; [|split; [done|split]].
  - unfold pdf_canvas. cbn [letter].
    change (792 - 50 - 25 - 30) with (cursor 0).
    cbn [app card_positions].
    change (startswith (py "Flashcards") (py "Flashcard #")) with false.
    change (startswith (generated_on stamp) (py "Flashcard #")) with false.
    cbn iota.
    pose proof (pdf_cards_positions cards 0 1 [Save]) as H.
    cbn [pages_begun letter snd] in H. rewrite H.
    cbn [card_positions]. by rewrite app_nil_r.
  - apply cursor_closed.
  - intros k. apply pages_begun_closed.
Qed.

End Layout.

(** ** Exporting *)

Section ExportFacts.

Variable str_lower : list N -> list N.
Variable stamp : list N.

Implicit Types (fs : gmap (list N) written_file) (status path : list N).

(** With no flashcards the export dialogue stops at its first test,
    whatever the user would have answered. *)
Lemma export_output_no_data askstring asksaveasfilename status fs :
  export_output str_lower stamp askstring asksaveasfilename (App [] status) fs
  = ExportRun None (App [] status) fs
      [ShowInfo (py "No data") (py "Please generate flashcards first.")].
Proof. done. Qed.

(** A typed choice that is neither [pdf] nor [word] once trimmed and
    lowered is reported, and nothing else happens. *)
Lemma export_output_invalid_choice typed asksaveasfilename self fs :
  app_flashcards self <> [] ->
  str_lower (strip typed) <> py "pdf" ->
  str_lower (strip typed) <> py "word" ->
  export_output str_lower stamp (Some typed) asksaveasfilename self fs
  = ExportRun None self fs
      [ShowError (py "Invalid format") (py "Please enter 'pdf' or 'word'.")].
Proof.
  intros Hcards Hpdf Hword. unfold export_output.
  rewrite decide_False by done. rewrite decide_True; [done|].
  intros [?|[?|?%elem_of_nil]%elem_of_cons]%elem_of_cons; done.
Qed.

(** A valid choice, typed with capitals and spaces, writes the file the
    exporter builds and updates the status bar. *)
Example export_output_pdf c :
  export_output lower_ascii stamp (Some (py " PDF "))
                (fun ext => py "cards" ++ ext) (App [c] (py "Ready")) ∅
  = ExportRun None (App [c] (py "Flashcards exported as PDF."))
      {[ py "cards.pdf" := PdfFile (pdf_canvas stamp [c]) ]} [].
Proof. reflexivity. Qed.

(** C6 (as amended).  [export_to_word] and [export_to_pdf], given zero
    flashcards, each write a file at the path that holds the title and
    the line with the generation time, and nothing more; the PDF canvas
    is saved.  The application never asks them to: with no flashcards
    [export_output] shows [No data] and writes no file, whatever format
    and path the user would have chosen. *)
Theorem export_of_no_flashcards path fs askstring asksaveasfilename status :
  export_to_word stamp path [] fs
  = Returned
      (<[path := DocxFile
                   [ Heading 1 (py "Flashcards");
                     Paragraph None (py "Generated on " ++ stamp ++ [NL]) ]]>
         fs)
  /\ export_to_pdf stamp path [] fs !! path
     = Some (PdfFile [ SetFont "Helvetica-Bold" 14;
                       DrawString 50 742 (py "Flashcards");
                       SetFont "Helvetica" 10;
                       DrawString 50 717 (py "Generated on " ++ stamp);
                       Save ])
  /\ run_files (export_output str_lower stamp askstring asksaveasfilename
                              (App [] status) fs) = fs
  /\ run_shown (export_output str_lower stamp askstring asksaveasfilename
                              (App [] status) fs)
     = [ShowInfo (py "No data") (py "Please generate flashcards first.")].
Proof.
  split; [|split; [|split]].
  - reflexivity.
  - unfold export_to_pdf. by rewrite lookup_insert_eq.
  - by rewrite export_output_no_data.
  - by rewrite export_output_no_data.
Qed.

(** C7, at the input where the code departs from it.  When the format
    dialog is cancelled, [askstring] returns [None] and [export_output]
    is left by the [AttributeError] of [None.strip()] before the format
    is examined: no message box tells the user of an invalid format.
    (No file is written and the flashcards are unchanged, as claimed.) *)
Theorem export_output_cancelled_dialog c cards status asksaveasfilename fs :
  export_output str_lower stamp None asksaveasfilename
                (App (c :: cards) status) fs
  = ExportRun (Some none_has_no_strip) (App (c :: cards) status) fs [].
Proof. done. Qed.

End ExportFacts.

(** C6 fails as stated for the program as the user drives it: asking to
    export zero flashcards as PDF, or as Word, to a path leaves no file
    there. *)
Lemma export_output_no_flashcards_no_file :
  run_files (export_output lower_ascii (py "2026-01-01 12:00")
               (Some (py "pdf")) (fun _ => py "cards.pdf")
               (App [] (py "Ready")) ∅)
    !! py "cards.pdf" = None
  /\ run_files (export_output lower_ascii (py "2026-01-01 12:00")
                  (Some (py "word")) (fun _ => py "cards.docx")
                  (App [] (py "Ready")) ∅)
       !! py "cards.docx" = None.
Proof. split; reflexivity. Qed.

(** * Further properties of the code *)

(** ** Paragraph selection, continued *)

Section SelectionMore.

Implicit Types (text p : list N) (min_len max_len limit : Z).

Lemma selection_is_slice text min_len max_len limit :
  get_relevant_paragraphs text min_len max_len limit
  = slice_to (relevant_lines text min_len max_len) limit.
Proof. reflexivity. Qed.

Lemma relevant_lines_elem text min_len max_len p :
  p ∈ relevant_lines text min_len max_len <->
  exists seg, seg ∈ split NL text /\ p = strip seg /\ within min_len max_len p.
Proof.
  unfold relevant_lines. rewrite list_elem_of_fmap. split.
  - intros (seg & -> & [Hw Hin]%list_elem_of_filter). eauto.
  - intros (seg & Hin & -> & Hw). exists seg. split; [done|].
    by apply list_elem_of_filter.
Qed.

Lemma infix_no_sep (sep : N) (pre s post : list N) :
  sep ∉ pre ++ s ++ post -> sep ∉ s.
Proof. intros Hn Hin. apply Hn. rewrite !elem_of_app. auto. Qed.

Lemma strip_no_sep (sep : N) (s : list N) : sep ∉ s -> sep ∉ strip s.
Proof.
  intros Hn. destruct (strip_infix s) as (pre & post & Heq).
  rewrite Heq in Hn. by eapply infix_no_sep.
Qed.

Lemma relevant_lines_facts text min_len max_len :
  Forall (fun p => (NL ∉ p) /\ strip p = p /\ within min_len max_len p)
         (relevant_lines text min_len max_len).
Proof.
  apply Forall_forall. intros p (seg & Hin & -> & Hw)%relevant_lines_elem.
  split; [|split; [apply strip_idemp|done]].
  apply strip_no_sep.
  pose proof (split_no_sep NL text) as Hall.
  rewrite Forall_forall in Hall. by apply Hall.
Qed.

Lemma infix_length (pre s post : list N) :
  (length s <= length (pre ++ s ++ post))%nat.
Proof. rewrite !length_app. lia. Qed.

Lemma relevant_lines_length text min_len max_len p :
  p ∈ relevant_lines text min_len max_len -> len p <= len text.
Proof.
  intros (seg & Hin & -> & _)%relevant_lines_elem.
  destruct (split_infix _ _ _ Hin) as (pre & post & ->).
  destruct (strip_infix seg) as (pre' & post' & Hs).
  pose proof (infix_length pre' (strip seg) post') as H1.
  rewrite <- Hs in H1.
  pose proof (infix_length pre seg post) as H2. unfold len. lia.
Qed.

Lemma split_app (sep : N) (s t : list N) :
  split sep (s ++ sep :: t) = split sep s ++ split sep t.
Proof.
  induction s as [|c s IH]; simpl.
  - by rewrite N.eqb_refl.
  - rewrite IH. destruct (c =? sep)%N; [done|].
    pose proof (split_not_nil sep s). by destruct (split sep s).
Qed.

(** X1.  Raising a non-negative [limit] only adds paragraphs at the end:
    the selection with the smaller limit is a prefix of the selection with
    the larger one. *)
Theorem selection_grows_with_limit text min_len max_len limit1 limit2 :
  0 <= limit1 -> limit1 <= limit2 ->
  get_relevant_paragraphs text min_len max_len limit1
  `prefix_of` get_relevant_paragraphs text min_len max_len limit2.
Proof.
  intros H1 H2. rewrite !selection_is_slice, !slice_to_nonneg by lia.
  replace (Z.to_nat limit1)
    with (Z.to_nat limit1 `min` Z.to_nat limit2)%nat by lia.
  rewrite <- take_take. apply prefix_take.
Qed.

Lemma selection_grows_with_limit_witness :
  get_relevant_paragraphs (py_lines ["one"; "two"; "three"]) 3 5 1
  `prefix_of` get_relevant_paragraphs (py_lines ["one"; "two"; "three"]) 3 5 2.
Proof.
  apply (selection_grows_with_limit (py_lines ["one"; "two"; "three"]) 3 5 1 2);
    lia.
Defined.

(** X2.  Selection works line by line: the paragraphs selected from two
    texts put one after the other with a newline between them are those
    of the first text followed by those of the second, cut to the limit. *)
Theorem selection_of_two_texts text1 text2 min_len max_len limit :
  get_relevant_paragraphs (text1 ++ [NL] ++ text2) min_len max_len limit
  = slice_to (relevant_lines text1 min_len max_len
              ++ relevant_lines text2 min_len max_len) limit.
Proof.
  rewrite selection_is_slice. unfold relevant_lines. simpl.
  by rewrite split_app, filter_app, fmap_app.
Qed.

(** X3.  Selecting again from the selected paragraphs, joined by newlines,
    changes nothing, when the limit is not negative and the minimum length
    is positive. *)
Theorem selection_is_stable text min_len max_len limit :
  0 <= limit -> 0 < min_len ->
  get_relevant_paragraphs
    (join [NL] (get_relevant_paragraphs text min_len max_len limit))
    min_len max_len limit
  = get_relevant_paragraphs text min_len max_len limit.
Proof.
  intros Hlimit Hmin.
  set (sel := get_relevant_paragraphs text min_len max_len limit).
  assert (Forall (fun p => (NL ∉ p) /\ strip p = p /\ within min_len max_len p)
                 sel) as Hsel.
  { eapply Forall_forall. intros p Hp.
    pose proof (relevant_lines_facts text min_len max_len) as Hall.
    rewrite Forall_forall in Hall. apply Hall.
    eapply elem_of_prefix; [exact Hp|]. apply slice_to_prefix. }
  assert (Z.of_nat (length sel) <= limit) as Hlen.
  { unfold sel. rewrite selection_is_slice, slice_to_nonneg by done.
    rewrite length_take. lia. }
  rewrite selection_is_slice, slice_to_nonneg by done.
  assert (relevant_lines (join [NL] sel) min_len max_len = sel) as ->.
  { unfold relevant_lines. destruct (decide (sel = [])) as [->|Hne].
    - simpl. rewrite filter_cons_False; [done|].
      unfold within, len. simpl. lia.
    - rewrite split_join; [|done|].
      + clear Hlen Hne. induction Hsel as [|p l (_ & Hs & Hw) _ IH]; [done|].
        rewrite filter_cons_True by (by rewrite Hs).
        rewrite fmap_cons, Hs. by f_equal.
      + eapply Forall_impl; [exact Hsel|]. by intros p (? & _). }
  apply take_ge. lia.
Qed.

Lemma selection_is_stable_witness :
  get_relevant_paragraphs
    (join [NL] (get_relevant_paragraphs
                  (py_lines ["  one "; "x"; "three"; "four"]) 3 5 2))
    3 5 2
  = get_relevant_paragraphs (py_lines ["  one "; "x"; "three"; "four"]) 3 5 2.
Proof.
  apply (selection_is_stable (py_lines ["  one "; "x"; "three"; "four"]) 3 5 2);
    lia.
Defined.

Lemma relevant_lines_none text min_len max_len :
  max_len < min_len \/ len text < min_len ->
  relevant_lines text min_len max_len = [].
Proof.
  intros Hcase.
  destruct (relevant_lines text min_len max_len) as [|p l] eqn:Heq; [done|].
  assert (p ∈ relevant_lines text min_len max_len) as Hin
    by (rewrite Heq; left).
  pose proof (relevant_lines_length _ _ _ _ Hin) as Hlen.
  apply relevant_lines_elem in Hin as (seg & _ & _ & Hw).
  unfold within in Hw. lia.
Qed.

Lemma slice_to_nil {A} stop : slice_to (@nil A) stop = [].
Proof. unfold slice_to. destruct (stop <? 0); apply take_nil. Qed.

(** X4.  Nothing is selected when the limit is 0, when the bounds leave no
    length between them, or when the whole text is shorter than the
    minimum length. *)
Theorem selection_is_empty text min_len max_len limit :
  limit = 0 \/ max_len < min_len \/ len text < min_len ->
  get_relevant_paragraphs text min_len max_len limit = [].
Proof.
  intros [->|Hcase]; [done|].
  rewrite selection_is_slice, relevant_lines_none by done.
  apply slice_to_nil.
Qed.

Lemma selection_is_empty_witness :
  get_relevant_paragraphs (py "a short note") 80 400 25 = [].
Proof.
  apply (selection_is_empty (py "a short note") 80 400 25).
  right. right. by vm_compute.
Defined.

(** X5.  With a positive minimum length every selected paragraph is one
    line that begins and ends with a character that is not white space. *)
Theorem selected_paragraphs_have_clean_ends text min_len max_len limit :
  0 < min_len ->
  Forall (fun p => (NL ∉ p)
                   /\ exists c d, head p = Some c /\ last p = Some d
                                  /\ isspace c = false /\ isspace d = false)
         (get_relevant_paragraphs text min_len max_len limit).
Proof.
  intros Hmin. apply Forall_forall. intros p Hp.
  assert (p ∈ relevant_lines text min_len max_len) as Hin.
  { eapply elem_of_prefix; [exact Hp|].
    rewrite selection_is_slice. apply slice_to_prefix. }
  pose proof (relevant_lines_facts text min_len max_len) as Hall.
  rewrite Forall_forall in Hall. destruct (Hall _ Hin) as (Hnl & Hs & Hw).
  split; [done|].
  assert (clean_head p) as Hhead.
  { rewrite <- Hs. apply rstrip_clean_head, lstrip_clean_head. }
  assert (clean_head (reverse p)) as Hlast.
  { rewrite <- Hs. unfold strip, rstrip. rewrite reverse_involutive.
    apply lstrip_clean_head. }
  destruct p as [|c p]; [unfold within, len in Hw; simpl in Hw; lia|].
  rewrite <- head_reverse.
  destruct (reverse (c :: p)) as [|d r] eqn:Hr.
  { apply (f_equal length) in Hr. rewrite length_reverse in Hr. done. }
  exists c, d. done.
Qed.

Lemma selected_paragraphs_have_clean_ends_witness :
  Forall (fun p => (NL ∉ p)
                   /\ exists c d, head p = Some c /\ last p = Some d
                                  /\ isspace c = false /\ isspace d = false)
         (get_relevant_paragraphs (py_lines ["  one "; "x"; "three"]) 3 5 2).
Proof.
  apply (selected_paragraphs_have_clean_ends
           (py_lines ["  one "; "x"; "three"]) 3 5 2).
  lia.
Defined.

End SelectionMore.

(** ** Flashcard generation, continued *)

Section GenerationMore.

Context {world : Type}.
Variable t5_generate : list N -> world -> outcome (list (list N)) * world.

Implicit Types (paras : list (list N)) (cards acc : list flashcard)
               (out : list (list N)) (w : world).

(** Every card of a batch carries a question the model returned for the
    paragraph that is its answer. *)
Lemma batch_cards_sound paras os c :
  c ∈ batch_cards paras os ->
  exists k qs,
    paras !! k = Some (answer c) /\ os !! k = Some (Returned qs)
    /\ question c ∈ qs.
Proof.
  unfold batch_cards. revert os.
  induction paras as [|para rest IH]; intros [|o os]; simpl;
    try by intros ?%elem_of_nil.
  intros [Hc|Hc]%elem_of_app.
  - destruct o as [qs|e]; simpl in Hc; [|by apply elem_of_nil in Hc].
    apply list_elem_of_fmap in Hc as (q & -> & Hq).
    exists 0%nat, qs. done.
  - destruct (IH _ Hc) as (k & qs & ? & ? & ?). by exists (S k), qs.
Qed.

Lemma outcomes_length paras w :
  length (outcomes t5_generate paras w) = length paras.
Proof.
  revert w. induction paras as [|para rest IH]; intros w; simpl; [done|].
  destruct (generate_questions t5_generate para w) as [o w1]. simpl.
  by rewrite IH.
Qed.

Lemma batch_cards_length (m : nat) paras os :
  Forall (fun o => match o with
                   | Returned qs => (length qs <= m)%nat
                   | Raised _ => True
                   end) os ->
  (length (batch_cards paras os) <= m * length paras)%nat.
Proof.
  unfold batch_cards. revert os.
  induction paras as [|para rest IH]; intros [|o os] Hall; simpl; try lia.
  inversion_clear Hall as [|?? Ho Hos]. rewrite length_app.
  specialize (IH _ Hos). destruct o as [qs|e]; simpl.
  - rewrite length_fmap. lia.
  - lia.
Qed.

(** The loop run with a recording model does what it does with the model
    itself, and records one prompt for each paragraph. *)
Lemma loop_recording paras acc out w log cards out' w' log' :
  flashcards_loop (recording t5_generate) paras acc out (w, log)
  = (Returned cards, out', (w', log')) ->
  flashcards_loop t5_generate paras acc out w = (Returned cards, out', w')
  /\ log' = log ++ ((fun para => py "generate questions: " ++ para) <$> paras).
Proof.
  revert acc out w log.
  induction paras as [|para rest IH]; intros acc out w log;
    cbn [flashcards_loop fmap list_fmap].
  - intros [= <- <- <- <-]. by rewrite app_nil_r.
  - unfold generate_questions, recording. cbn [fst snd].
    destruct (t5_generate (py "generate questions: " ++ para) w)
      as [[qs|e] w1].
    + intros [Hrun ->]%IH. split; [done|]. by rewrite <- app_assoc.
    + destruct (exn_is_Exception e); [|done].
      intros [Hrun ->]%IH. split; [done|]. by rewrite <- app_assoc.
Qed.

(** X6.  When [generate_flashcards] returns, the model has been given one
    prompt for each selected paragraph, in their order and nothing else:
    the paragraph after the words [generate questions: ]. *)
Theorem one_prompt_per_paragraph text max_flashcards w cards out w' log' :
  generate_flashcards (recording t5_generate) text max_flashcards (w, [])
  = (Returned cards, out, (w', log')) ->
  log' = (fun para => py "generate questions: " ++ para)
         <$> get_relevant_paragraphs text default_min_len default_max_len
                                     max_flashcards
  /\ generate_flashcards t5_generate text max_flashcards w
     = (Returned cards, out, w').
Proof. intros [Hrun ->]%loop_recording. done. Qed.

(** X7.  [max_flashcards] bounds the paragraphs used, not the flashcards:
    when it is not negative and no call of the model returns more than [m]
    questions, at most [m * max_flashcards] flashcards are returned. *)
Theorem flashcard_count_bound (m : nat) text max_flashcards w cards out w' :
  0 <= max_flashcards ->
  Forall (fun o => match o with
                   | Returned qs => (length qs <= m)%nat
                   | Raised _ => True
                   end)
         (outcomes t5_generate
            (get_relevant_paragraphs text default_min_len default_max_len
                                     max_flashcards) w) ->
  generate_flashcards t5_generate text max_flashcards w
  = (Returned cards, out, w') ->
  Z.of_nat (length cards) <= Z.of_nat m * max_flashcards.
Proof.
  intros Hmax Hm (_ & -> & _)%loop_returned. simpl.
  pose proof (batch_cards_length m
                (get_relevant_paragraphs text default_min_len default_max_len
                                         max_flashcards) _ Hm) as Hlen.
  assert (Z.of_nat (length (get_relevant_paragraphs
                              text default_min_len default_max_len
                              max_flashcards)) <= max_flashcards) as Hsel.
  { rewrite selection_is_slice, slice_to_nonneg, length_take by done. lia. }
  nia.
Qed.

(** X8.  A text shorter than 80 characters gives no flashcard: the model
    is not called and nothing is printed. *)
Theorem short_text_gives_no_flashcards text max_flashcards w :
  len text < default_min_len ->
  generate_flashcards t5_generate text max_flashcards w = (Returned [], [], w).
Proof.
  intros Hshort. unfold generate_flashcards.
  rewrite selection_is_slice, relevant_lines_none by auto.
  by rewrite slice_to_nil.
Qed.

(** X9.  Every flashcard returned pairs a selected paragraph with one of
    the questions the model returned for that very paragraph. *)
Theorem questions_come_from_the_model text max_flashcards w cards out w' c :
  generate_flashcards t5_generate text max_flashcards w
  = (Returned cards, out, w') ->
  c ∈ cards ->
  exists k qs,
    get_relevant_paragraphs text default_min_len default_max_len
                            max_flashcards !! k = Some (answer c)
    /\ outcomes t5_generate
         (get_relevant_paragraphs text default_min_len default_max_len
                                  max_flashcards) w !! k
       = Some (Returned qs)
    /\ question c ∈ qs.
Proof. intros (_ & -> & _)%loop_returned. simpl. apply batch_cards_sound. Qed.

(** X10.  Every answer of a returned flashcard is one line of 80 to 400
    characters without white space at its ends. *)
Theorem answers_are_bounded_lines text max_flashcards w cards out w' :
  generate_flashcards t5_generate text max_flashcards w
  = (Returned cards, out, w') ->
  Forall (fun c => 80 <= len (answer c) <= 400
                   /\ strip (answer c) = answer c /\ (NL ∉ answer c))
         cards.
Proof.
  intros (_ & -> & _)%loop_returned. simpl.
  apply Forall_forall. intros c [k Hk]%list_elem_of_lookup.
  destruct (batch_cards_lookup _ _ _ _ Hk) as [pk Hpk].
  apply list_elem_of_lookup_2 in Hpk.
  assert (answer c ∈ relevant_lines text default_min_len default_max_len)
    as Hin.
  { eapply elem_of_prefix; [exact Hpk|].
    rewrite selection_is_slice. apply slice_to_prefix. }
  pose proof (relevant_lines_facts text default_min_len default_max_len)
    as Hall.
  rewrite Forall_forall in Hall. destruct (Hall _ Hin) as (? & ? & ?). done.
Qed.

End GenerationMore.

Lemma one_prompt_per_paragraph_witness :
  [py "generate questions: " ++ replicate 80 65%N;
   py "generate questions: " ++ replicate 90 66%N;
   py "generate questions: " ++ replicate 85 67%N]
  = (fun para => py "generate questions: " ++ para)
    <$> get_relevant_paragraphs sample_text default_min_len default_max_len 25
  /\ generate_flashcards (sample_model 1) sample_text 25 0%nat
     = (Returned sample_cards,
        [py "Error generating for paragraph: out of memory"], 3%nat).
Proof.
  apply (one_prompt_per_paragraph (sample_model 1) sample_text 25 0%nat
           sample_cards [py "Error generating for paragraph: out of memory"]
           3%nat).
  by vm_compute.
Defined.

Lemma flashcard_count_bound_witness :
  Z.of_nat (length sample_cards) <= Z.of_nat 2 * 25.
Proof.
  apply (flashcard_count_bound (sample_model 1) 2 sample_text 25 0%nat
           sample_cards [py "Error generating for paragraph: out of memory"]
           3%nat).
  - lia.
  - vm_compute. repeat constructor.
  - by vm_compute.
Defined.

Lemma short_text_gives_no_flashcards_witness :
  generate_flashcards (sample_model 0) (py "a short note") 25 0%nat
  = (Returned [], [], 0%nat).
Proof.
  apply (short_text_gives_no_flashcards (sample_model 0) (py "a short note")
           25 0%nat).
  by vm_compute.
Defined.

Lemma questions_come_from_the_model_witness :
  exists k qs,
    get_relevant_paragraphs sample_text default_min_len default_max_len 25
      !! k = Some (replicate 85 67%N)
    /\ outcomes (sample_model 1)
         (get_relevant_paragraphs sample_text default_min_len
                                  default_max_len 25) 0%nat !! k
       = Some (Returned qs)
    /\ py "Why C?" ∈ qs.
Proof.
  apply (questions_come_from_the_model (sample_model 1) sample_text 25 0%nat
           sample_cards [py "Error generating for paragraph: out of memory"]
           3%nat (py "Why C?", replicate 85 67%N)).
  - by vm_compute.
  - unfold sample_cards. do 3 right. left.
Defined.

Lemma answers_are_bounded_lines_witness :
  Forall (fun c => 80 <= len (answer c) <= 400
                   /\ strip (answer c) = answer c /\ (NL ∉ answer c))
         sample_cards.
Proof.
  apply (answers_are_bounded_lines (sample_model 1) sample_text 25 0%nat
           sample_cards [py "Error generating for paragraph: out of memory"]
           3%nat).
  by vm_compute.
Defined.

(** ** Text extraction, continued *)

Section ExtractionMore.

Variable docx_paragraphs : list N -> outcome (list (list N)).
Variable pdf_pages : list N -> outcome (list (list N)).

Implicit Types (paragraphs pages : list (list N)) (path : list N).

Lemma join_nil_inv (parts : list (list N)) :
  join [NL] parts = [] -> Forall (fun t => t = []) parts.
Proof.
  destruct parts as [|p [|p' ps]]; simpl.
  - by constructor.
  - intros ->. by repeat constructor.
  - intros [_ ?]%app_eq_nil. done.
Qed.

Lemma within_non_blank min_len max_len (p : list N) :
  0 < min_len -> within min_len max_len (strip p) -> non_blank p.
Proof.
  unfold within, non_blank, len. intros Hmin Hw Heq.
  rewrite Heq in Hw. simpl in Hw. lia.
Qed.

Lemma relevant_lines_of_joined min_len max_len paragraphs :
  0 < min_len -> Forall (fun t => NL ∉ t) paragraphs ->
  relevant_lines (join [NL] (filter non_blank paragraphs)) min_len max_len
  = strip <$> filter (fun p => within min_len max_len (strip p)) paragraphs.
Proof.
  intros Hmin Hnl.
  assert (filter (fun p => within min_len max_len (strip p))
                 (filter non_blank paragraphs)
          = filter (fun p => within min_len max_len (strip p)) paragraphs)
    as Hff.
  { rewrite list_filter_filter. apply list_filter_iff. intros p.
    split; [by intros [? _]|]. intros Hw. split; [done|].
    by eapply within_non_blank. }
  unfold relevant_lines.
  destruct (decide (filter non_blank paragraphs = [])) as [Hnone|Hsome].
  - rewrite <- Hff, Hnone. simpl. rewrite filter_cons_False; [done|].
    unfold within, len. simpl. lia.
  - rewrite split_join; [by rewrite Hff|done|].
    apply Forall_forall. intros t [_ Ht]%list_elem_of_filter.
    rewrite Forall_forall in Hnl. by apply Hnl.
Qed.

(** X11.  For a word-processor document none of whose paragraphs holds a
    line break, the lines of the extracted text are its non-blank
    paragraphs in their order, provided there is one. *)
Theorem docx_lines_are_paragraphs path paragraphs :
  docx_paragraphs path = Returned paragraphs ->
  Forall (fun t => NL ∉ t) paragraphs ->
  Exists non_blank paragraphs ->
  exists text,
    extract_text_from_docx docx_paragraphs path = Returned text
    /\ split NL text = filter non_blank paragraphs.
Proof.
  intros Hdoc Hnl Hex. unfold extract_text_from_docx. rewrite Hdoc.
  eexists. split; [done|]. apply split_join.
  - apply Exists_exists in Hex as (t & Hin & Ht).
    intros Heq. assert (t ∈ filter non_blank paragraphs) as Hf
      by by apply list_elem_of_filter.
    rewrite Heq in Hf. by apply elem_of_nil in Hf.
  - apply Forall_forall. intros t [_ Ht]%list_elem_of_filter.
    rewrite Forall_forall in Hnl. by apply Hnl.
Qed.

(** X12.  Extraction followed by selection, for such a document and a
    positive minimum length: the paragraphs selected from the extracted
    text are the trimmed paragraphs of the document whose trimmed length
    is within the bounds, cut to the limit. *)
Theorem selection_from_docx path paragraphs min_len max_len limit :
  docx_paragraphs path = Returned paragraphs ->
  Forall (fun t => NL ∉ t) paragraphs ->
  0 < min_len ->
  exists text,
    extract_text_from_docx docx_paragraphs path = Returned text
    /\ get_relevant_paragraphs text min_len max_len limit
       = slice_to
           (strip <$> filter (fun p => within min_len max_len (strip p))
                             paragraphs)
           limit.
Proof.
  intros Hdoc Hnl Hmin. unfold extract_text_from_docx. rewrite Hdoc.
  eexists. split; [done|].
  by rewrite selection_is_slice, relevant_lines_of_joined.
Qed.

Lemma filter_all_blank paragraphs :
  Forall (fun t => strip t = []) paragraphs ->
  filter non_blank paragraphs = [].
Proof.
  induction 1 as [|t l Ht _ IH]; [done|].
  rewrite filter_cons_False; [done|]. intros Hnb. by apply Hnb.
Qed.

Lemma concat_nil_iff pages :
  concat pages = [] <-> Forall (fun t => t = []) pages.
Proof.
  induction pages as [|page rest IH]; simpl.
  - split; [by constructor|done].
  - split.
    + intros [-> Hrest]%app_eq_nil. constructor; [done|]. by apply IH.
    + intros Hall. inversion_clear Hall as [|?? -> Hrest]. by apply IH.
Qed.

(** X13.  The text extracted from a word-processor document is empty
    exactly when all its paragraphs are blank, and the text extracted from
    a PDF exactly when no page has text. *)
Theorem extracted_text_is_empty_iff path paragraphs pages :
  docx_paragraphs path = Returned paragraphs ->
  pdf_pages path = Returned pages ->
  (extract_text_from_docx docx_paragraphs path = Returned []
   <-> Forall (fun t => strip t = []) paragraphs)
  /\ (extract_text_from_pdf pdf_pages path = Returned []
      <-> Forall (fun t => t = []) pages).
Proof.
  intros Hdoc Hpdf. unfold extract_text_from_docx, extract_text_from_pdf.
  rewrite Hdoc, Hpdf. split; split.
  - intros [= Hj]. apply Forall_forall. intros t Hin.
    destruct (decide (strip t = [])) as [|Hnb]; [done|]. exfalso.
    apply join_nil_inv in Hj. rewrite Forall_forall in Hj.
    assert (t = []) as -> by (apply Hj; by apply list_elem_of_filter).
    by apply Hnb.
  - intros Hall. by rewrite filter_all_blank.
  - intros [= Hc]. rewrite foldl_app_concat in Hc. by apply concat_nil_iff.
  - intros Hall%concat_nil_iff. by rewrite foldl_app_concat, Hall.
Qed.

End ExtractionMore.

Lemma docx_lines_are_paragraphs_witness :
  exists text,
    extract_text_from_docx sample_docx (py "notes.docx") = Returned text
    /\ split NL text = filter non_blank [py "first"; py "  "; py "second"].
Proof.
  apply (docx_lines_are_paragraphs sample_docx (py "notes.docx")
           [py "first"; py "  "; py "second"]).
  - reflexivity.
  - apply (bool_decide_unpack _). by vm_compute.
  - apply Exists_cons_hd. by vm_compute.
Defined.

Lemma selection_from_docx_witness :
  exists text,
    extract_text_from_docx sample_docx (py "notes.docx") = Returned text
    /\ get_relevant_paragraphs text 5 6 25
       = slice_to
           (strip <$> filter (fun p => within 5 6 (strip p))
                             [py "first"; py "  "; py "second"])
           25.
Proof.
  apply (selection_from_docx sample_docx (py "notes.docx")
           [py "first"; py "  "; py "second"] 5 6 25).
  - reflexivity.
  - apply (bool_decide_unpack _). by vm_compute.
  - lia.
Defined.

Lemma extracted_text_is_empty_iff_witness :
  (extract_text_from_docx blank_docx (py "notes.docx") = Returned []
   <-> Forall (fun t => strip t = []) [py "   "])
  /\ (extract_text_from_pdf sample_pdf (py "notes.docx") = Returned []
      <-> Forall (fun t => t = []) [py "page one "; py "page two"]).
Proof.
  apply (extracted_text_is_empty_iff blank_docx sample_pdf (py "notes.docx")
           [py "   "] [py "page one "; py "page two"]); reflexivity.
Defined.

(** ** The exporters, continued *)

Section ExportersMore.

Implicit Types (stamp path : list N) (cards : list flashcard).


Lemma pdf_cards_inj height y i cards1 cards2 :
  pdf_cards height y i cards1 ++ [Save]
  = pdf_cards height y i cards2 ++ [Save] ->
  cards1 = cards2.
Proof.
  revert y i cards2.
  induction cards1 as [|[q1 a1] rest1 IH]; intros y i [|[q2 a2] rest2];
    cbn [pdf_cards]; try (by destruct (y <? page_threshold)).
  destruct (y <? page_threshold); cbn [app].
  - intros [= -> -> Hrest]. f_equal. by eapply IH.
  - intros [= -> -> Hrest]. f_equal. by eapply IH.
Qed.


(** X15.  The same for the PDF: the calls on the canvas determine the time
    stamp and the flashcards. *)
Theorem pdf_canvas_determines_cards stamp1 stamp2 cards1 cards2 :
  pdf_canvas stamp1 cards1 = pdf_canvas stamp2 cards2 ->
  stamp1 = stamp2 /\ cards1 = cards2.
Proof.
  unfold pdf_canvas, generated_on. cbn [letter app].
  intros [= Hstamp Hcards]. split.
  - done.
  - by eapply pdf_cards_inj.
Qed.

Lemma word_cards_lookup i cards k c :
  cards !! k = Some c ->
  word_cards i cards !! (4 * k)%nat
  = Some (Paragraph (Some "Heading2") (card_title (i + k)))
  /\ word_cards i cards !! (4 * k + 1)%nat
     = Some (Paragraph None (py "Q: " ++ question c))
  /\ word_cards i cards !! (4 * k + 2)%nat
     = Some (Paragraph None (py "A: " ++ answer c))
  /\ word_cards i cards !! (4 * k + 3)%nat = Some (Paragraph None []).
Proof.
  revert i k. induction cards as [|[q a] rest IH]; intros i [|k]; try done.
  - intros [= <-]. cbn [word_cards app]. rewrite Nat.add_0_r. done.
  - intros Hk. cbn [word_cards app].
    replace (4 * S k)%nat with (S (S (S (S (4 * k))))) by lia.
    replace (i + S k)%nat with (S i + k)%nat by lia.
    cbn [Nat.add]. apply (IH (S i) k Hk).
Qed.

Lemma word_cards_length i cards :
  length (word_cards i cards) = (4 * length cards)%nat.
Proof.
  revert i. induction cards as [|[q a] rest IH]; intros i; [done|].
  cbn [word_cards app length]. rewrite IH. lia.
Qed.

(** X16.  The word-processor document has two blocks for the title and the
    time and four for each flashcard: the [k]-th flashcard (counted from
    0) has its title [Flashcard #k+1] at block [2 + 4k], followed by its
    question, its answer and an empty paragraph. *)
Theorem word_document_layout stamp cards k c :
  cards !! k = Some c ->
  length (word_document stamp cards) = (2 + 4 * length cards)%nat
  /\ word_document stamp cards !! (2 + 4 * k)%nat
     = Some (Paragraph (Some "Heading2") (card_title (S k)))
  /\ word_document stamp cards !! (2 + 4 * k + 1)%nat
     = Some (Paragraph None (py "Q: " ++ question c))
  /\ word_document stamp cards !! (2 + 4 * k + 2)%nat
     = Some (Paragraph None (py "A: " ++ answer c))
  /\ word_document stamp cards !! (2 + 4 * k + 3)%nat
     = Some (Paragraph None []).
Proof.
  intros Hk. unfold word_document. cbn [app length].
  rewrite word_cards_length. split; [done|].
  destruct (word_cards_lookup 1 cards k c Hk) as (H0 & H1 & H2 & H3).
  cbn [Nat.add]. done.
Qed.

Lemma word_document_layout_witness :
  length (word_document (py "2026-01-01 12:00") sample_cards)
  = (2 + 4 * length sample_cards)%nat
  /\ word_document (py "2026-01-01 12:00") sample_cards !! (2 + 4 * 2)%nat
     = Some (Paragraph (Some "Heading2") (card_title 3))
  /\ word_document (py "2026-01-01 12:00") sample_cards !! (2 + 4 * 2 + 1)%nat
     = Some (Paragraph None (py "Q: " ++ py "What is C?"))
  /\ word_document (py "2026-01-01 12:00") sample_cards !! (2 + 4 * 2 + 2)%nat
     = Some (Paragraph None (py "A: " ++ replicate 85 67%N))
  /\ word_document (py "2026-01-01 12:00") sample_cards !! (2 + 4 * 2 + 3)%nat
     = Some (Paragraph None []).
Proof.
  apply (word_document_layout (py "2026-01-01 12:00") sample_cards 2
           (py "What is C?", replicate 85 67%N)).
  reflexivity.
Defined.


Lemma pdf_canvas_determines_cards_witness :
  py "2026-01-01 12:00" = py "2026-01-01 12:00" /\ sample_cards = sample_cards.
Proof.
  apply (pdf_canvas_determines_cards (py "2026-01-01 12:00")
           (py "2026-01-01 12:00") sample_cards sample_cards).
  reflexivity.
Defined.

End ExportersMore.

(** ** The PDF canvas, continued *)

Section CanvasMore.

Implicit Types (stamp : list N) (cards : list flashcard).

(** The lines the loop draws, from its [k]-th iteration on. *)
Lemma pdf_cards_drawn cards k tail :
  drawn_strings (pages_begun k)
                (pdf_cards letter.2 (cursor k) (S k) cards ++ tail)
  = concat (imap (fun j => card_lines (k + j)) cards)
    ++ drawn_strings (pages_begun (k + length cards)) tail.
Proof.
  revert k. induction cards as [|[q a] rest IH]; intros k.
  - simpl. by rewrite Nat.add_0_r.
  - cbn [pdf_cards length imap concat].
    replace (k + S (length rest))%nat with (S k + length rest)%nat by lia.
    specialize (IH (S k)). rewrite cursor_step in IH.
    rewrite (imap_ext _ (fun j => card_lines (S k + j)) rest)
      by (intros; simpl; f_equal; lia).
    rewrite Nat.add_0_r. unfold card_lines at 1.
    unfold page_of, title_height, breaks_before in *.
    cbn [pages_begun question answer fst snd] in *.
    unfold breaks_before in *.
    destruct (cursor k <? page_threshold) eqn:Hb.
    + rewrite Nat.add_1_r in *. cbn [app drawn_strings]. do 3 f_equal.
      replace (letter.2 - 50 - 15 - 15 - 25)
        with (letter.2 - 50 - 55) by lia.
      exact IH.
    + rewrite Nat.add_0_r in *. cbn [app drawn_strings]. do 3 f_equal.
      replace (cursor k - 15 - 15 - 25) with (cursor k - 55) by lia.
      exact IH.
Qed.

Lemma title_height_bounds k : 100 <= title_height k <= 742.
Proof.
  unfold title_height, breaks_before, page_threshold. rewrite cursor_closed.
  pose proof (Nat.mod_upper_bound k 12). cbn [letter snd].
  destruct (Z.ltb_spec (687 - 55 * Z.of_nat (k mod 12)) 100); lia.
Qed.

Lemma pdf_cards_show_pages cards k i :
  length (filter (fun op => op = ShowPage)
                 (pdf_cards letter.2 (cursor k) i cards))
  = (pages_begun (k + length cards) - pages_begun k)%nat.
Proof.
  revert k i. induction cards as [|[q a] rest IH]; intros k i.
  - simpl. rewrite Nat.add_0_r. lia.
  - cbn [pdf_cards length].
    replace (k + S (length rest))%nat with (S k + length rest)%nat by lia.
    specialize (IH (S k) (S i)). rewrite cursor_step in IH.
    unfold title_height, breaks_before in IH.
    assert (pages_begun (S k) <= pages_begun (S k + length rest))%nat as Hmono.
    { clear. induction (length rest) as [|n IHn].
      - by rewrite Nat.add_0_r.
      - replace (S k + S n)%nat with (S (S k + n)) by lia.
        cbn [pages_begun] in *. lia. }
    cbn [pages_begun] in *. unfold breaks_before in *.
    destruct (cursor k <? page_threshold) eqn:Hb.
    + cbn [app]. rewrite filter_cons_True by done.
      rewrite !filter_cons_False by done.
      replace (letter.2 - 50 - 15 - 15 - 25)
        with (letter.2 - 50 - 55) by lia.
      cbn [length]. rewrite IH. lia.
    + cbn [app]. rewrite !filter_cons_False by done.
      replace (cursor k - 15 - 15 - 25) with (cursor k - 55) by lia.
      rewrite IH. lia.
Qed.

Lemma pdf_cards_no_save height y i cards : Save ∉ pdf_cards height y i cards.
Proof.
  revert y i. induction cards as [|[q a] rest IH]; intros y i.
  - by intros ?%elem_of_nil.
  - cbn [pdf_cards]. rewrite !elem_of_app.
    intros [Hin|[Hin|Hin]].
    + destruct (y <? page_threshold).
      * by apply list_elem_of_singleton in Hin.
      * by apply elem_of_nil in Hin.
    + repeat (apply elem_of_cons in Hin as [?|Hin]; [done|]).
      by apply elem_of_nil in Hin.
    + by eapply IH.
Qed.

(** X17.  What the PDF holds, for any flashcards: the title and the time
    on the first page, then for the [k]-th flashcard (counted from 0) its
    title [Flashcard #k+1], its question and its answer, 15 units apart,
    on the page and at the height its rank alone gives. *)
Theorem pdf_canvas_text stamp cards :
  drawn_strings 0 (pdf_canvas stamp cards)
  = [ (0%nat, 50, 742, py "Flashcards");
      (0%nat, 50, 717, py "Generated on " ++ stamp) ]
    ++ concat (imap card_lines cards).
Proof.
  unfold pdf_canvas. cbn [letter app drawn_strings].
  change (792 - 50 - 25 - 30) with (cursor 0).
  pose proof (pdf_cards_drawn cards 0 [Save]) as H.
  cbn [pages_begun letter snd] in H.
  change (792 - 50) with 742. change (742 - 25) with 717.
  do 2 f_equal. rewrite H. cbn [drawn_strings]. by rewrite app_nil_r.
Qed.

(** X18.  Every string starts on the page: the point [drawString] is given
    has [x = 50] and a height between 70 and 742, inside the 612 by 792 of
    the page, however many flashcards there are.  (Where a string ends is
    another matter: the text is not wrapped.) *)
Theorem pdf_strings_start_on_the_page stamp cards :
  Forall (fun '(page, x, y, text) =>
            x = 50 /\ 70 <= y <= 742 /\ 0 < x < letter.1 /\ 0 < y < letter.2)
         (drawn_strings 0 (pdf_canvas stamp cards)).
Proof.
  unfold pdf_canvas. cbn [letter app drawn_strings].
  change (792 - 50 - 25 - 30) with (cursor 0).
  pose proof (pdf_cards_drawn cards 0 [Save]) as H.
  cbn [pages_begun letter snd] in H. rewrite H. cbn [drawn_strings snd].
  rewrite app_nil_r.
  constructor; [cbn [letter fst snd]; lia|].
  constructor; [cbn [letter fst snd]; lia|].
  apply Forall_forall. intros [[[page x] y] text] Hin.
  apply list_elem_of_In, in_concat in Hin as (ls & Hls & Hin).
  apply list_elem_of_In in Hls, Hin.
  apply list_elem_of_lookup in Hls as [k Hk].
  rewrite list_lookup_imap in Hk.
  destruct (cards !! k) as [c|]; [|done]. injection Hk as <-.
  pose proof (title_height_bounds k). unfold card_lines in Hin.
  cbn [letter fst snd].
  repeat (apply elem_of_cons in Hin as [[= -> -> -> ->]|Hin]; [lia|]).
  by apply elem_of_nil in Hin.
Qed.

(** X19.  The canvas begins [length cards / 12] pages after the first and
    is saved once, at the end. *)
Theorem pdf_canvas_pages stamp cards :
  length (filter (fun op => op = ShowPage) (pdf_canvas stamp cards))
  = (length cards / 12)%nat
  /\ exists ops, pdf_canvas stamp cards = ops ++ [Save] /\ Save ∉ ops.
Proof.
  unfold pdf_canvas. cbn [letter]. split.
  - change (792 - 50 - 25 - 30) with (cursor 0).
    cbn [app]. rewrite !filter_cons_False by done.
    rewrite filter_app, length_app.
    pose proof (pdf_cards_show_pages cards 0 1) as H.
    cbn [letter snd pages_begun] in H. rewrite H.
    rewrite filter_cons_False by done. rewrite filter_nil.
    cbn [length Nat.add]. rewrite pages_begun_closed. lia.
  - eexists (_ :: _ :: _ :: _ :: pdf_cards _ _ _ cards).
    split; [done|].
    intros Hin.
    repeat (apply elem_of_cons in Hin as [?|Hin]; [done|]).
    by eapply pdf_cards_no_save.
Qed.

End CanvasMore.

(** ** The callbacks of the window *)

Section WindowFacts.

Variable open_read : list N -> outcome (list N).
Variable docx_paragraphs : list N -> outcome (list (list N)).
Variable pdf_pages : list N -> outcome (list (list N)).
Context {world : Type}.
Variable t5_generate : list N -> world -> outcome (list (list N)) * world.
Variable str_lower : list N -> list N.

Abbreviation load :=
  (load_file open_read docx_paragraphs pdf_pages t5_generate).

Lemma rstrip_app_clean (s t : list N) (c : N) :
  isspace c = false -> rstrip (s ++ c :: t) = s ++ c :: rstrip t.
Proof.
  intros Hc. unfold rstrip.
  rewrite reverse_app, reverse_cons, <- app_assoc. cbn [app].
  rewrite lstrip_app_clean by done.
  by rewrite reverse_app, reverse_cons, !reverse_involutive, <- app_assoc.
Qed.

Lemma display_flashcards_frame self cards :
  win_app (display_flashcards self cards) = win_app self
  /\ win_theme (display_flashcards self cards) = win_theme self
  /\ win_colours (display_flashcards self cards) = win_colours self
  /\ win_clipboard (display_flashcards self cards) = win_clipboard self.
Proof. unfold display_flashcards. by destruct (decide (cards = [])). Qed.

(** A card with a form feed in its answer: python-docx refuses it, so
    that exporting it as Word leaves [export_output] by the [ValueError]
    with no file written and the status as it was, where exporting it as
    PDF goes through. *)
Example export_output_word_refused stamp :
  export_output lower_ascii stamp (Some (py "word"))
                (fun ext => py "cards" ++ ext)
                (App [(py "Q?", py "a" ++ [12%N] ++ py "b")] (py "Ready")) ∅
  = ExportRun (Some not_xml_compatible)
      (App [(py "Q?", py "a" ++ [12%N] ++ py "b")] (py "Ready")) ∅ []
  /\ run_raised
       (export_output lower_ascii stamp (Some (py "pdf"))
                      (fun ext => py "cards" ++ ext)
                      (App [(py "Q?", py "a" ++ [12%N] ++ py "b")]
                           (py "Ready")) ∅)
     = None.
Proof. split; reflexivity. Qed.

(** X20.  [export_output] never changes the flashcards, and changes at
    most one file, the one at the path the user chose; when it shows a
    message box or is left by an exception (the cancelled format dialog,
    a text python-docx refuses) it has changed nothing. *)
Theorem export_output_frame stamp askstring asksaveasfilename self fs :
  app_flashcards
    (run_app (export_output str_lower stamp askstring asksaveasfilename
                            self fs))
  = app_flashcards self
  /\ (run_files (export_output str_lower stamp askstring asksaveasfilename
                               self fs) = fs
      \/ exists ext file,
           asksaveasfilename ext <> []
           /\ run_files (export_output str_lower stamp askstring
                                       asksaveasfilename self fs)
              = <[asksaveasfilename ext := file]> fs)
  /\ ((run_shown (export_output str_lower stamp askstring asksaveasfilename
                                self fs) = []
       /\ run_raised (export_output str_lower stamp askstring
                                    asksaveasfilename self fs) = None)
      \/ (run_files (export_output str_lower stamp askstring
                                   asksaveasfilename self fs) = fs
          /\ run_app (export_output str_lower stamp askstring
                                    asksaveasfilename self fs) = self)).
Proof.
  unfold export_output.
  destruct (decide (app_flashcards self = [])); [by auto|].
  destruct askstring as [typed|]; [|by auto].
  destruct (decide (str_lower (strip typed) ∉ [py "pdf"; py "word"]));
    [by auto|].
  destruct (decide (asksaveasfilename _ = [])) as [|Hpath]; [by auto|].
  destruct (decide (str_lower (strip typed) = py "pdf")).
  - cbn [run_app run_files run_shown run_raised set_status app_flashcards].
    split; [done|]. split; [right; eauto|by left].
  - unfold export_to_word. destruct (forallb _ _); [|by auto].
    cbn [run_app run_files run_shown run_raised set_status app_flashcards].
    split; [done|]. split; [right; eauto|by left].
Qed.

(** X21.  After [display_flashcards], whatever the flashcards,
    [copy_output] finds something to copy: the clipboard gets the text of
    the output box without the white space at its ends, which begins with
    [Flashcard #1], or is the message that none could be generated. *)
Theorem copy_after_display self cards :
  app_status (win_app (copy_output (display_flashcards self cards)))
  = py "Output copied to clipboard."
  /\ win_clipboard (copy_output (display_flashcards self cards))
     = strip (win_output (display_flashcards self cards) ++ [NL])
  /\ startswith
       (win_clipboard (copy_output (display_flashcards self cards)))
       (if decide (cards = []) then py "No flashcards could be generated."
        else py "Flashcard #1")
     = true.
Proof.
  assert (startswith
            (strip (win_output (display_flashcards self cards) ++ [NL]))
            (if decide (cards = [])
             then py "No flashcards could be generated."
             else py "Flashcard #1") = true) as Hstart.
  { unfold display_flashcards.
    destruct (decide (cards = [])) as [->|Hne]; [by vm_compute|].
    destruct cards as [|[q a] rest]; [done|].
    cbn [with_output win_output display_cards].
    apply startswith_prefix.
    exists (rstrip ([NL] ++ py "Q: " ++ q ++ [NL] ++ py "A: " ++ a
                    ++ [NL; NL] ++ display_cards 2 rest ++ [NL])).
    unfold strip. rewrite lstrip_id by done.
    change (py "Flashcard #1") with (py "Flashcard #" ++ [49%N]).
    rewrite <- (app_assoc (py "Flashcard #") [49%N]). cbn [app].
    rewrite <- (rstrip_app_clean (py "Flashcard #") _ 49%N) by done.
    f_equal. change (str_of_nat 1) with [49%N].
    repeat first [rewrite <- app_assoc | rewrite <- app_comm_cons].
    reflexivity. }
  assert (strip (win_output (display_flashcards self cards) ++ [NL]) <> [])
    as Hne.
  { intros Heq. rewrite Heq in Hstart. by destruct (decide (cards = [])). }
  unfold copy_output. rewrite decide_True by done.
  cbn [with_status win_app set_status app_status win_clipboard]. done.
Qed.

Lemma load_file_frame file_path self w :
  win_theme (load_window (load file_path self w)) = win_theme self
  /\ win_colours (load_window (load file_path self w)) = win_colours self
  /\ win_clipboard (load_window (load file_path self w)) = win_clipboard self.
Proof.
  unfold load_file. destruct (decide (file_path = [])); [done|].
  destruct (extract_text _ _ _ file_path) as [text|e].
  - destruct (generate_flashcards _ _ _ _) as [[[cards|e] out] w'].
    + cbn [load_window with_status win_theme win_colours win_clipboard].
      by destruct (display_flashcards_frame
                     (with_flashcards
                        (with_output (with_status self (py "Processing file..."))
                                     (py "Generating flashcards..." ++ [NL]))
                        cards) cards) as (_ & -> & -> & ->).
    + unfold load_failed. by destruct (exn_is_Exception e).
  - unfold load_failed. by destruct (exn_is_Exception e).
Qed.

(** X22.  Choosing a file whose name ends in none of [.txt], [.docx],
    [.pdf] leaves the flashcards and the output box as they were: the
    status becomes [Error occurred.], one error box gives the reason, and
    the model is not called. *)
Theorem load_unsupported_file file_path self w :
  file_path <> [] ->
  endswith file_path (py ".txt") = false ->
  endswith file_path (py ".docx") = false ->
  endswith file_path (py ".pdf") = false ->
  load file_path self w
  = LoadRun None (with_status self (py "Error occurred.")) w []
      [ShowError (py "Error")
         (py "Failed to process file:" ++ [NL] ++ py "Unsupported file type.")].
Proof.
  intros Hpath Htxt Hdocx Hpdf. unfold load_file, extract_text.
  rewrite decide_False by done. by rewrite Htxt, Hdocx, Hpdf.
Qed.

Lemma load_file_returned file_path text self w cards out w' :
  file_path <> [] ->
  extract_text open_read docx_paragraphs pdf_pages file_path = Returned text ->
  generate_flashcards t5_generate text default_max_flashcards w
  = (Returned cards, out, w') ->
  load file_path self w
  = LoadRun None
      (with_status
         (display_flashcards
            (with_flashcards
               (with_output (with_status self (py "Processing file..."))
                            (py "Generating flashcards..." ++ [NL]))
               cards)
            cards)
         (py "Flashcards generated successfully."))
      w' out [].
Proof.
  intros Hpath Htext Hrun. unfold load_file.
  rewrite decide_False by done. by rewrite Htext, Hrun.
Qed.

(** X23.  A failure of the model is never shown as an error.  When the
    file is read and every call of the model returns or fails with an
    exception that derives from [Exception], [load_file] ends with the
    status [Flashcards generated successfully.] and no message box, even
    if every paragraph failed; the flashcards kept are those of the
    paragraphs whose call returned, and the output box shows them, or
    that none could be generated. *)
Theorem load_reports_success file_path text self w :
  file_path <> [] ->
  extract_text open_read docx_paragraphs pdf_pages file_path = Returned text ->
  Forall survivable
    (outcomes t5_generate
       (get_relevant_paragraphs text default_min_len default_max_len
                                default_max_flashcards) w) ->
  load_raised (load file_path self w) = None
  /\ load_shown (load file_path self w) = []
  /\ app_status (win_app (load_window (load file_path self w)))
     = py "Flashcards generated successfully."
  /\ app_flashcards (win_app (load_window (load file_path self w)))
     = batch_cards
         (get_relevant_paragraphs text default_min_len default_max_len
                                  default_max_flashcards)
         (outcomes t5_generate
            (get_relevant_paragraphs text default_min_len default_max_len
                                     default_max_flashcards) w)
  /\ win_output (load_window (load file_path self w))
     = (if decide (app_flashcards
                     (win_app (load_window (load file_path self w))) = [])
        then py "No flashcards could be generated."
        else display_cards 1
               (app_flashcards
                  (win_app (load_window (load file_path self w))))).
Proof.
  intros Hpath Htext Hs.
  destruct (loop_survives t5_generate _ [] [] w Hs) as [w' Hrun].
  rewrite (load_file_returned _ _ _ _ _ _ _ Hpath Htext Hrun).
  cbn [app load_raised load_shown load_window].
  unfold display_flashcards.
  destruct (decide (batch_cards _ _ = [])) as [Heq|Hne];
    cbn [with_status with_output with_flashcards win_app win_output
         app_flashcards set_status app_status];
    [rewrite decide_True by done|rewrite decide_False by done]; done.
Qed.

(** X24.  A document of fewer than 80 characters: [load_file] keeps no
    flashcard and writes that none could be generated, and an export
    asked for afterwards shows [No data] and writes no file. *)
Theorem load_short_then_export
    file_path text self w stamp askstring asksaveasfilename fs :
  file_path <> [] ->
  extract_text open_read docx_paragraphs pdf_pages file_path = Returned text ->
  len text < default_min_len ->
  app_flashcards (win_app (load_window (load file_path self w))) = []
  /\ win_output (load_window (load file_path self w))
     = py "No flashcards could be generated."
  /\ load_world (load file_path self w) = w
  /\ export_output str_lower stamp askstring asksaveasfilename
                   (win_app (load_window (load file_path self w))) fs
     = ExportRun None (win_app (load_window (load file_path self w))) fs
         [ShowInfo (py "No data") (py "Please generate flashcards first.")].
Proof.
  intros Hpath Htext Hshort.
  rewrite (load_file_returned _ _ self w [] [] w Hpath Htext); [done|].
  unfold generate_flashcards.
  rewrite selection_is_slice, relevant_lines_none by auto.
  by rewrite slice_to_nil.
Qed.

Lemma themes_differ : LIGHT_THEME <> DARK_THEME.
Proof.
  intros Heq. apply (f_equal (fun d => d !! "bg")) in Heq.
  by vm_compute in Heq.
Qed.

Lemma toggle_theme_themed self :
  themed self ->
  exists self',
    toggle_theme self = Returned self' /\ themed self'
    /\ win_theme self' <> win_theme self
    /\ toggle_theme self' = Returned self.
Proof.
  destruct self as [a theme cs output clipboard].
  intros [[Ht|Ht] Hcs]; cbn [win_theme win_colours] in *; subst theme.
  - unfold toggle_theme. cbn [win_theme]. rewrite decide_True by done.
    eexists. split; [reflexivity|].
    split; [by split; [right|]|]. split; [apply not_eq_sym, themes_differ|].
    cbn [win_theme]. rewrite decide_False by apply not_eq_sym, themes_differ.
    cbn [win_app win_output win_clipboard].
    assert (Returned cs = update_widget_colors LIGHT_THEME) as Hc by done.
    vm_compute in Hc. injection Hc as ->. reflexivity.
  - unfold toggle_theme. cbn [win_theme].
    rewrite decide_False by apply not_eq_sym, themes_differ.
    eexists. split; [reflexivity|].
    split; [by split; [left|]|]. split; [apply themes_differ|].
    cbn [win_theme]. rewrite decide_True by done.
    cbn [win_app win_output win_clipboard].
    assert (Returned cs = update_widget_colors DARK_THEME) as Hc by done.
    vm_compute in Hc. injection Hc as ->. reflexivity.
Qed.

Lemma callback_themed s s' :
  callback open_read docx_paragraphs pdf_pages t5_generate str_lower s s' ->
  themed s.1.1 -> themed s'.1.1.
Proof.
  intros [self self' fs w Htoggle|self fs w|file_path self fs w
         |stamp askstring asksaveasfilename self fs w]; cbn [fst].
  - intros Hth. destruct (toggle_theme_themed _ Hth) as (s2 & Ht2 & Hth2 & _).
    congruence.
  - unfold copy_output. by destruct (decide _).
  - unfold themed.
    destruct (load_file_frame file_path self w) as (-> & -> & _). done.
  - done.
Qed.

Lemma callbacks_themed s s' :
  rtc (callback open_read docx_paragraphs pdf_pages t5_generate str_lower)
      s s' ->
  themed s.1.1 -> themed s'.1.1.
Proof.
  induction 1 as [|s1 s2 s3 Hcb _ IH]; [done|].
  intros H1. apply IH. by eapply callback_themed.
Qed.

(** X25.  From the window as [__init__] builds it, after any sequence of
    callbacks (theme toggles, copies, loads, exports): the theme is the
    light or the dark one, the widgets have the colours of the theme (no
    key is ever missing), and toggling the theme changes it and, done
    twice, gives the window back as it was. *)
Theorem theme_stays_consistent clipboard self0 fs0 w0 self fs w :
  init clipboard = Returned self0 ->
  rtc (callback open_read docx_paragraphs pdf_pages t5_generate str_lower)
      (self0, fs0, w0) (self, fs, w) ->
  (win_theme self = LIGHT_THEME \/ win_theme self = DARK_THEME)
  /\ update_widget_colors (win_theme self) = Returned (win_colours self)
  /\ exists self',
       toggle_theme self = Returned self'
       /\ win_theme self' <> win_theme self
       /\ toggle_theme self' = Returned self.
Proof.
  intros Hinit Hrtc.
  assert (themed self) as Hth.
  { apply (callbacks_themed _ _ Hrtc). cbn [fst].
    vm_compute in Hinit. injection Hinit as <-. split; [by left|done]. }
  destruct Hth as [Htheme Hcs]. split; [done|]. split; [done|].
  destruct (toggle_theme_themed self (conj Htheme Hcs))
    as (self' & H1 & _ & H2 & H3).
  eauto.
Qed.

End WindowFacts.

Lemma load_unsupported_file_witness :
  load_file sample_open_read sample_docx sample_pdf (sample_model 0)
            (py "notes.md") sample_window 0%nat
  = LoadRun None (with_status sample_window (py "Error occurred.")) 0%nat []
      [ShowError (py "Error")
         (py "Failed to process file:" ++ [NL] ++ py "Unsupported file type.")].
Proof.
  apply (load_unsupported_file sample_open_read sample_docx sample_pdf
           (sample_model 0) (py "notes.md") sample_window 0%nat);
    [done|reflexivity..].
Defined.

Lemma load_reports_success_witness :
  load_raised (load_file sample_reader sample_docx sample_pdf (sample_model 1)
                         (py "notes.txt") sample_window 0%nat) = None
  /\ load_shown (load_file sample_reader sample_docx sample_pdf
                           (sample_model 1) (py "notes.txt") sample_window
                           0%nat) = []
  /\ app_status
       (win_app (load_window
                   (load_file sample_reader sample_docx sample_pdf
                              (sample_model 1) (py "notes.txt") sample_window
                              0%nat)))
     = py "Flashcards generated successfully."
  /\ app_flashcards
       (win_app (load_window
                   (load_file sample_reader sample_docx sample_pdf
                              (sample_model 1) (py "notes.txt") sample_window
                              0%nat)))
     = batch_cards
         (get_relevant_paragraphs sample_text default_min_len default_max_len
                                  default_max_flashcards)
         (outcomes (sample_model 1)
            (get_relevant_paragraphs sample_text default_min_len
                                     default_max_len default_max_flashcards)
            0%nat)
  /\ win_output
       (load_window
          (load_file sample_reader sample_docx sample_pdf (sample_model 1)
                     (py "notes.txt") sample_window 0%nat))
     = (if decide
             (app_flashcards
                (win_app (load_window
                            (load_file sample_reader sample_docx sample_pdf
                                       (sample_model 1) (py "notes.txt")
                                       sample_window 0%nat))) = [])
        then py "No flashcards could be generated."
        else display_cards 1
               (app_flashcards
                  (win_app (load_window
                              (load_file sample_reader sample_docx sample_pdf
                                         (sample_model 1) (py "notes.txt")
                                         sample_window 0%nat))))).
Proof.
  apply (load_reports_success sample_reader sample_docx sample_pdf
           (sample_model 1) (py "notes.txt") sample_text sample_window 0%nat).
  - done.
  - reflexivity.
  - vm_compute. repeat constructor.
Defined.

Lemma load_short_then_export_witness :
  app_flashcards
    (win_app (load_window
                (load_file sample_open_read sample_docx sample_pdf
                           (sample_model 0) (py "notes.txt") sample_window
                           0%nat))) = []
  /\ win_output
       (load_window
          (load_file sample_open_read sample_docx sample_pdf (sample_model 0)
                     (py "notes.txt") sample_window 0%nat))
     = py "No flashcards could be generated."
  /\ load_world
       (load_file sample_open_read sample_docx sample_pdf (sample_model 0)
                  (py "notes.txt") sample_window 0%nat) = 0%nat
  /\ export_output lower_ascii (py "2026-01-01 12:00") (Some (py "pdf"))
                   (fun _ => py "cards.pdf")
                   (win_app
                      (load_window
                         (load_file sample_open_read sample_docx sample_pdf
                                    (sample_model 0) (py "notes.txt")
                                    sample_window 0%nat))) ∅
     = ExportRun None
         (win_app
            (load_window
               (load_file sample_open_read sample_docx sample_pdf
                          (sample_model 0) (py "notes.txt") sample_window
                          0%nat))) ∅
         [ShowInfo (py "No data") (py "Please generate flashcards first.")].
Proof.
  apply (load_short_then_export sample_open_read sample_docx sample_pdf
           (sample_model 0) lower_ascii (py "notes.txt") (py "plain text")
           sample_window 0%nat).
  - done.
  - reflexivity.
  - by vm_compute.
Defined.

Lemma theme_stays_consistent_witness :
  (win_theme (copy_output sample_dark_window) = LIGHT_THEME
   \/ win_theme (copy_output sample_dark_window) = DARK_THEME)
  /\ update_widget_colors (win_theme (copy_output sample_dark_window))
     = Returned (win_colours (copy_output sample_dark_window))
  /\ exists self',
       toggle_theme (copy_output sample_dark_window) = Returned self'
       /\ win_theme self' <> win_theme (copy_output sample_dark_window)
       /\ toggle_theme self' = Returned (copy_output sample_dark_window).
Proof.
  apply (theme_stays_consistent sample_open_read sample_docx sample_pdf
           (sample_model 0) lower_ascii [] sample_window ∅ 0%nat
           (copy_output sample_dark_window) ∅ 0%nat).
  - reflexivity.
  - eapply rtc_l; [apply cb_toggle; reflexivity|].
    eapply rtc_l; [apply cb_copy|]. apply rtc_refl.
Defined.
